(** * Kratos orchestration scripts: a shallow embedding and its properties

    The Python scripts of this repository sit on top of the native Kratos
    engine.  Each script is embedded below in a module of its own, in a
    state-and-exception monad over the part of the outside world the
    script touches (the engine's nodal storage, the process working
    directory, the calls made on a test object). *)

From Stdlib Require Import ZArith QArith.
From stdpp Require Import gmap strings list.

Local Open Scope Z_scope.
Local Open Scope string_scope.

(** ** Python values, exceptions and sequences *)

Module Py.

(** The exceptions the scripts can meet.  [EngineError] stands for
    whatever the native engine raises; its payload is the engine's own
    message and is never inspected by a script. *)
Inductive exn : Type :=
| IndexError
| NameError (name : string)
| OSError (path : string)
| TypeError (what : string)
| ValueError (what : string)
| SyntaxError (what : string)
| EngineError (what : string).

Inductive result (A : Type) : Type :=
| Ok (a : A)
| Raise (e : exn).
Arguments Ok {A} a.
Arguments Raise {A} e.

(** A statement running against a mutable world [S]: it ends normally
    with a value or with an exception, and in both cases leaves the
    world as it was mutated so far. *)
Definition M (S A : Type) : Type := S -> result A * S.

Definition ret {S A} (a : A) : M S A := fun s => (Ok a, s).

Definition raise {S A} (e : exn) : M S A := fun s => (Raise e, s).

Definition bind {S A B} (m : M S A) (k : A -> M S B) : M S B :=
  fun s =>
    match m s with
    | (Ok a, s') => k a s'
    | (Raise e, s') => (Raise e, s')
    end.

(** A pure computation that may raise, run as a statement. *)
Definition lift {S A} (r : result A) : M S A := fun s => (r, s).

(** [try: m  except: handler] with a bare [except], which catches
    every exception. *)
Definition try_except {S A} (m : M S A) (handler : M S A) : M S A :=
  fun s =>
    match m s with
    | (Ok a, s') => (Ok a, s')
    | (Raise _, s') => handler s'
    end.

(** [with mgr: body], [enter] and [exit] being the manager's
    [__enter__] and [__exit__].  [exit] receives the exception the body
    ended with, if any.  When it returns a true value that exception is
    swallowed, and the program goes on with [after], the statements that
    follow the abandoned block; when it returns a false one the
    exception is passed on; an exception raised by [exit] itself
    replaces it. *)
Definition with_ {S A} (enter : M S unit) (exit : option exn -> M S bool)
    (body : M S A) (after : M S A) : M S A :=
  fun s =>
    match enter s with
    | (Raise e, s1) => (Raise e, s1)
    | (Ok _, s1) =>
        match body s1 with
        | (Ok a, s2) =>
            match exit None s2 with
            | (Ok _, s3) => (Ok a, s3)
            | (Raise e', s3) => (Raise e', s3)
            end
        | (Raise e, s2) =>
            match exit (Some e) s2 with
            | (Ok true, s3) => after s3
            | (Ok false, s3) => (Raise e, s3)
            | (Raise e', s3) => (Raise e', s3)
            end
        end
    end.

(** A name that a block would have bound, used after the block was
    abandoned. *)
Definition unbound {S A} (name : string) : M S A := raise (NameError name).

(** [for x in xs: body], the loop-carried local variables being [acc]. *)
Fixpoint for_in {S A X} (xs : list X) (body : X -> A -> M S A) (acc : A)
  : M S A :=
  match xs with
  | [] => ret acc
  | x :: rest => bind (body x acc) (for_in rest body)
  end.

(** [range(n)]: empty when [n <= 0]. *)
Definition range (n : Z) : list Z := Z.of_nat <$> seq 0 (Z.to_nat n).

(** [l * k] on a list: [k <= 0] gives the empty list. *)
Definition list_mul {A} (l : list A) (k : Z) : list A :=
  mjoin (replicate (Z.to_nat k) l).

(** Index normalisation of [l[i]]: a negative index counts from the
    end; anything outside [-len, len) is an [IndexError]. *)
Definition index {A} (l : list A) (i : Z) : result nat :=
  let len := Z.of_nat (length l) in
  if decide (0 <= i < len) then Ok (Z.to_nat i)
  else if decide (- len <= i < 0) then Ok (Z.to_nat (len + i))
  else Raise IndexError.

(** [l[i]] *)
Definition getitem {A} (l : list A) (i : Z) : result A :=
  match index l i with
  | Ok n => match l !! n with Some x => Ok x | None => Raise IndexError end
  | Raise e => Raise e
  end.

(** [l[i] = x] *)
Definition setitem {A} (l : list A) (i : Z) (x : A) : result (list A) :=
  match index l i with
  | Ok n => Ok (<[n := x]> l)
  | Raise e => Raise e
  end.

(** [x in l] *)
Definition contains (l : list Z) (x : Z) : bool := existsb (Z.eqb x) l.

(** Frame conditions: a statement [respects R] when the world it
    leaves, normally or by an exception, is [R]-related to the world it
    started in; it is [read_only] when it leaves the world as it was. *)
Definition respects {S A} (R : relation S) (m : M S A) : Prop :=
  forall s, R s (snd (m s)).

Definition read_only {S A} (m : M S A) : Prop := respects eq m.

End Py.

Import Py.

Declare Scope py_scope.
Delimit Scope py_scope with py.
Notation "'let*' p := m 'in' k" := (bind m (fun p => k))
  (at level 10, p pattern, m at level 100, k at level 200) : py_scope.
Notation "m ;; k" := (bind m (fun _ => k))
  (at level 100, right associativity) : py_scope.
Local Open Scope py_scope.

(** ** coupling_interface_data.py *)

Module CouplingInterfaceData.
Section WithScalar.

(** The nodal values are copied, never computed with: their type is
    left open; [zero] is the [0] the script fills its buffers with. *)
Context {scalar : Type} (zero : scalar).

Definition NodeId : Type := nat.

(** Modelled from the spec: the native engine's object model, which is
    not among the sources.  [model] maps a model-part name to the node
    container [model[name].Nodes] in iteration order; [variables] is the
    registry behind [KratosGlobals.GetVariable]; [solution_step_data]
    holds, for a node, a variable and a buffer index, the value
    [node.GetSolutionStepValue] returns there, as a sequence of
    components.  Nodes are referred to by identity, so a node shared by
    two model parts is one entry. *)
Record Engine : Type := mkEngine {
  model : gmap string (list NodeId);
  variables : gset string;
  solution_step_data : gmap (NodeId * string * nat) (list scalar)
}.

(** Modelled from the spec: [self.solver.model[name]], raising the
    engine's error when there is no such model part. *)
Definition model_getitem (geometry_name : string) : M Engine (list NodeId) :=
  fun eng =>
    match model eng !! geometry_name with
    | Some nodes => (Ok nodes, eng)
    | None => (Raise (EngineError geometry_name), eng)
    end.

(** Modelled from the spec: [KratosGlobals.GetVariable(name)]; the
    variable object is identified with its name. *)
Definition GetVariable (name : string) : M Engine string :=
  fun eng =>
    if decide (name ∈ variables eng) then (Ok name, eng)
    else (Raise (EngineError name), eng).

(** Modelled from the spec: [node.GetSolutionStepValue(variable, index)],
    a read of the engine's storage. *)
Definition GetSolutionStepValue (node : NodeId) (variable : string)
    (solution_step_index : nat) : M Engine (list scalar) :=
  fun eng =>
    match solution_step_data eng !! (node, variable, solution_step_index) with
    | Some value => (Ok value, eng)
    | None => (Raise (EngineError variable), eng)
    end.

(** Modelled from the spec: [node.SetSolutionStepValue(variable, index,
    value)].  The binding converts the Python sequence into the
    engine's own value, so the node holds a copy of it. *)
Definition SetSolutionStepValue (node : NodeId) (variable : string)
    (solution_step_index : nat) (value : list scalar) : M Engine unit :=
  fun eng =>
    (Ok tt,
     mkEngine (model eng) (variables eng)
       (<[(node, variable, solution_step_index) := value]>
          (solution_step_data eng))).

(** The fields of a [CouplingInterfaceData] object that its methods
    read; [self.solver.model] is the engine's [model]. *)
Record t : Type := mk {
  name : string;
  dimension : Z;
  location : string;
  geometry_name : string
}.

(** [default_config] of [__init__]. *)
Definition default_config : t :=
  {| name := "default"; dimension := -1;
     location := "node_historical"; geometry_name := "" |}.

(** The entries a [custom_config] gives; [ValidateAndAssignDefaults]
    takes the others from [default_config]. *)
Record Config : Type := mkConfig {
  config_name : option string;
  config_dimension : option Z;
  config_location : option string;
  config_geometry_name : option string
}.

Definition __init__ (custom_config : Config) : t :=
  {| name := default (name default_config) (config_name custom_config);
     dimension :=
       default (dimension default_config) (config_dimension custom_config);
     location :=
       default (location default_config) (config_location custom_config);
     geometry_name :=
       default (geometry_name default_config)
         (config_geometry_name custom_config) |}.

Definition GetPythonList (self : t) (solution_step_index : nat)
  : M Engine (list scalar) :=
  let* data_mesh := model_getitem (geometry_name self) in
  let data :=
    list_mul (list_mul [zero] (Z.of_nat (length data_mesh))) (dimension self) in
  let* data_variable := GetVariable (name self) in
  let node_index := 0 in
  let* (data, node_index) :=
    for_in data_mesh (fun node '(data, node_index) =>
      let* data_value :=
        GetSolutionStepValue node data_variable solution_step_index in
      let* data :=
        for_in (range (dimension self)) (fun i data =>
          let* x := lift (getitem data_value i) in
          lift (setitem data (node_index * dimension self + i) x)) data in
      ret (data, node_index + 1)) (data, node_index) in
  ret data.

(** [np.asarray(l, dtype=np.float64)]: the array holds the entries of
    the list; the conversion to double precision is not modelled. *)
Definition np_asarray (l : list scalar) : list scalar := l.

Definition GetNumpyArray (self : t) (solution_step_index : nat)
  : M Engine (list scalar) :=
  let* l := GetPythonList self solution_step_index in
  ret (np_asarray l).

Definition ApplyUpdateToData (self : t) (update : list scalar)
  : M Engine unit :=
  let* data_mesh := model_getitem (geometry_name self) in
  let* data_variable := GetVariable (name self) in
  let node_index := 0 in
  let updated_value := list_mul [zero] 3 in
  for_in data_mesh (fun node '(updated_value, node_index) =>
    let* updated_value :=
      for_in (range (dimension self)) (fun i updated_value =>
        let* x := lift (getitem update (node_index * dimension self + i)) in
        lift (setitem updated_value i x)) updated_value in
    SetSolutionStepValue node data_variable 0 updated_value ;;
    ret (updated_value, node_index + 1)) (updated_value, node_index) ;;
  ret tt.

(** *** Vocabulary of the statements below *)

(** The value [ApplyUpdateToData] hands to the engine for node number
    [k] when the dimension is [d <= 3]: the [d] entries of [update]
    from position [k*d] on, followed by the untouched zeros of the
    three-element buffer. *)
Definition node_update (d : nat) (update : list scalar) (k : nat)
  : list scalar :=
  take d (drop (k * d) update) ++ replicate (3 - d) zero.

(** The engine after [SetSolutionStepValue(variable, 0, node_update k)]
    has been called on the nodes [nodes], numbered from [k] on. *)
Fixpoint set_nodes (variable : string) (d : nat) (update : list scalar)
    (nodes : list NodeId) (k : nat) (eng : Engine) : Engine :=
  match nodes with
  | [] => eng
  | node :: rest =>
      set_nodes variable d update rest (S k)
        (snd (SetSolutionStepValue node variable 0 (node_update d update k) eng))
  end.

(** What [ApplyUpdateToData] may change: the step-0 value of [variable]
    on the nodes [nodes], and nothing else. *)
Definition same_but (variable : string) (nodes : list NodeId)
  : relation Engine :=
  fun eng eng' =>
    model eng' = model eng
    /\ variables eng' = variables eng
    /\ forall node var step,
         ~ (node ∈ nodes /\ var = variable /\ step = 0%nat) ->
         solution_step_data eng' !! (node, var, step)
         = solution_step_data eng !! (node, var, step).

(** A value as [ApplyUpdateToData] writes it for the dimension [d]:
    three components, those from [d] on being [0]. *)
Definition three_components (d : Z) (v : list scalar) : Prop :=
  length v = 3%nat
  /\ forall j : nat, d <= Z.of_nat j -> (j < 3)%nat -> v !! j = Some zero.

(** Every value of [eng'] is the one [eng] has or such a value. *)
Definition writes_three_components (d : Z) : relation Engine :=
  fun eng eng' =>
    forall key,
      solution_step_data eng' !! key = solution_step_data eng !! key
      \/ exists v,
           solution_step_data eng' !! key = Some v /\ three_components d v.

(** [self.ApplyUpdateToData(self.GetPythonList(0))] *)
Definition round_trip (self : t) : M Engine unit :=
  let* data := GetPythonList self 0 in
  ApplyUpdateToData self data.

End WithScalar.
End CouplingInterfaceData.


(** ** tests/SmallTestsMPI.py *)

Module SmallTestsMPI.

Inductive TestClass : Type :=
| KratosExecuteNearestNeighborMapperTest
| KratosExecuteNearestNeighborMapperTestMPI.

(** A test object of the mapping application, as constructed by
    [setUp]. *)
Record TestObject : Type := mkTest {
  class : TestClass;
  GiD_output : bool
}.

Inductive TestMethod : Type :=
| TestMapConstantScalarValues
| TestInverseMapConstantScalarValues
| TestMapConstantVectorValues
| TestInverseMapConstantVectorValues
| TestMapNonConstantScalarValues
| TestInverseMapNonConstantScalarValues.

(** The calls the script makes into the mapping application. *)
Inductive event : Type :=
| Construct (test : TestObject)
| Call (test : TestObject) (method : TestMethod) (value : Q).

(** What the script can observe and change of the process it runs in:
    the working directory, the directories that exist (each named by
    its absolute path, as [os.getcwd] and [os.path.realpath] give it)
    and the calls made so far. *)
Record World : Type := mkWorld {
  cwd : string;
  directories : gset string;
  log : list event
}.

(** Modelled from the spec: what the script is given from outside and
    cannot change.  [import_mpi] is the outcome of
    [from KratosMultiphysics.mpi import *]: the value of [mpi.size], or
    the exception the import ends with; [file_dir] is
    [os.path.dirname(os.path.realpath(__file__))]; [raises] tells which
    calls into the mapping application end in an exception. *)
Record Env : Type := mkEnv {
  import_mpi : result Z;
  file_dir : string;
  raises : event -> option exn
}.

(** [os.getcwd()] and [os.chdir(path)] of the Python library: the
    former fails when the working directory has been removed, the latter
    when there is no such directory. *)
Definition getcwd : M World string :=
  fun w =>
    if decide (cwd w ∈ directories w)
    then (Ok (cwd w), w)
    else (Raise (OSError (cwd w)), w).

Definition chdir (path : string) : M World unit :=
  fun w =>
    if decide (path ∈ directories w)
    then (Ok tt, mkWorld path (directories w) (log w))
    else (Raise (OSError path), w).

(** Modelled from the spec: a call into the mapping application; it is
    made, and then returns or raises. *)
Definition engine_call (env : Env) (ev : event) : M World unit :=
  fun w =>
    let w' := mkWorld (cwd w) (directories w) (log w ++ [ev]) in
    match raises env ev with
    | Some e => (Raise e, w')
    | None => (Ok tt, w')
    end.

(** The module-level guard around the import of the MPI module: the
    binding of the global name [mpi] it leaves, if any. *)
Definition import_guard (env : Env) : M World (option Z) :=
  try_except
    (let* size := lift (import_mpi env) in ret (Some size))
    (ret None).

Module controlledExecutionScope.

Record t : Type := mk {
  currentPath : string;
  scope : string
}.

Definition __init__ (scope : string) : M World t :=
  let* currentPath := getcwd in
  ret {| currentPath := currentPath; scope := scope |}.

Definition __enter__ (self : t) : M World unit :=
  chdir (scope self).

(** [__exit__] returns [None], which does not swallow the exception. *)
Definition __exit__ (self : t) (exc : option exn) : M World bool :=
  chdir (currentPath self) ;;
  ret false.

End controlledExecutionScope.

(** [with controlledExecutionScope(scope): body].  The value of the
    statement stands for the names the block binds; as [__exit__] never
    returns a true value, the block is never abandoned in silence and
    nothing goes on without them. *)
Definition within (scope : string) {A} (body : M World A) : M World A :=
  let* mgr := controlledExecutionScope.__init__ scope in
  with_ (controlledExecutionScope.__enter__ mgr)
        (controlledExecutionScope.__exit__ mgr) body
        (unbound "block").

Module NearestNeighborMapperTestFactory.

Record t : Type := mk {
  num_processors : Z;
  test : TestObject
}.

(** [mpi] is the module-level binding left by the import guard. *)
Definition setUp (env : Env) (mpi : option Z) : M World t :=
  let* num_processors :=
    try_except
      (match mpi with
       | Some size => ret size
       | None => raise (NameError "mpi")
       end)
      (ret 1) in
  within (file_dir env)
    (let GiD_output := true in
     if decide (num_processors = 1) then
       let test := mkTest KratosExecuteNearestNeighborMapperTest GiD_output in
       engine_call env (Construct test) ;;
       ret {| num_processors := num_processors; test := test |}
     else
       let test := mkTest KratosExecuteNearestNeighborMapperTestMPI GiD_output in
       engine_call env (Construct test) ;;
       ret {| num_processors := num_processors; test := test |}).

Definition serialTests (env : Env) (self : t) : M World unit :=
  engine_call env (Call (test self) TestMapConstantScalarValues 1) ;;
  engine_call env (Call (test self) TestInverseMapConstantScalarValues 2) ;;
  engine_call env (Call (test self) TestMapConstantVectorValues 3) ;;
  engine_call env (Call (test self) TestInverseMapConstantVectorValues 4) ;;
  engine_call env (Call (test self) TestMapNonConstantScalarValues 5) ;;
  engine_call env (Call (test self) TestInverseMapNonConstantScalarValues 6).

Definition parallelTests (env : Env) (self : t) : M World unit :=
  engine_call env (Call (test self) TestMapConstantScalarValues 1) ;;
  engine_call env (Call (test self) TestInverseMapConstantScalarValues 2) ;;
  engine_call env (Call (test self) TestMapConstantVectorValues 3) ;;
  engine_call env (Call (test self) TestInverseMapConstantVectorValues 4).

Definition test_execution (env : Env) (self : t) : M World unit :=
  within (file_dir env)
    (if decide (num_processors self = 1) then
       serialTests env self
     else
       parallelTests env self ;;
       let list_processors_TestMapNonConstantScalarValues := [2; 4; 8] in
       (if contains list_processors_TestMapNonConstantScalarValues
             (num_processors self)
        then engine_call env
               (Call (test self) TestMapNonConstantScalarValues 5)
        else ret tt) ;;
       let list_processors_TestInverseMapNonConstantScalarValues := [3; 5; 9] in
       (if contains list_processors_TestInverseMapNonConstantScalarValues
             (num_processors self)
        then engine_call env
               (Call (test self) TestInverseMapNonConstantScalarValues 6)
        else ret tt)).


(** *** Vocabulary of the statements below *)

(** The class [setUp] instantiates once [num_processors] is known. *)
Definition test_class (num_processors : Z) : TestClass :=
  if decide (num_processors = 1) then KratosExecuteNearestNeighborMapperTest
  else KratosExecuteNearestNeighborMapperTestMPI.

(** The calls [test_execution] makes when none of them raises. *)
Definition planned_calls (self : t) : list event :=
  if decide (num_processors self = 1) then
    [ Call (test self) TestMapConstantScalarValues 1;
      Call (test self) TestInverseMapConstantScalarValues 2;
      Call (test self) TestMapConstantVectorValues 3;
      Call (test self) TestInverseMapConstantVectorValues 4;
      Call (test self) TestMapNonConstantScalarValues 5;
      Call (test self) TestInverseMapNonConstantScalarValues 6 ]
  else
    [ Call (test self) TestMapConstantScalarValues 1;
      Call (test self) TestInverseMapConstantScalarValues 2;
      Call (test self) TestMapConstantVectorValues 3;
      Call (test self) TestInverseMapConstantVectorValues 4 ]
    ++ (if decide (num_processors self = 2 \/ num_processors self = 4
                   \/ num_processors self = 8)
        then [Call (test self) TestMapNonConstantScalarValues 5] else [])
    ++ (if decide (num_processors self = 3 \/ num_processors self = 5
                   \/ num_processors self = 9)
        then [Call (test self) TestInverseMapNonConstantScalarValues 6]
        else []).

End NearestNeighborMapperTestFactory.

(** The calls of [evs] made one after the other, up to and including
    the first that raises. *)
Definition calls (env : Env) (evs : list event) : M World unit :=
  for_in evs (fun ev _ => engine_call env ev) tt.

(** The part of [evs] that gets called, and how the sequence ends. *)
Fixpoint called (env : Env) (evs : list event) : list event * result unit :=
  match evs with
  | [] => ([], Ok tt)
  | ev :: rest =>
      match raises env ev with
      | Some e => ([ev], Raise e)
      | None => let '(done, r) := called env rest in (ev :: done, r)
      end
  end.

End SmallTestsMPI.

(** ** fluid_fraction_test_analysis.py *)

Module FluidFractionTestAnalysis.

(** The objects the script hands around. *)
Inductive value : Type :=
| Model
| Parameters (json : string).

(** A parameter list: names, each with its default value if it has one. *)
Definition signature : Type := list (string * option value).

(** Binding of the positional arguments of a call to the parameters of
    the function called. *)
Fixpoint bind_arguments (params : signature) (args : list value)
  : result (list (string * value)) :=
  match params, args with
  | [], [] => Ok []
  | [], _ :: _ => Raise (TypeError "too many positional arguments")
  | (p, _) :: params, a :: args =>
      match bind_arguments params args with
      | Ok bound => Ok ((p, a) :: bound)
      | Raise e => Raise e
      end
  | (p, Some d) :: params, [] =>
      match bind_arguments params [] with
      | Ok bound => Ok ((p, d) :: bound)
      | Raise e => Raise e
      end
  | (p, None) :: _, [] => Raise (TypeError p)
  end.

(** A local variable of the function body. *)
Definition local (bound : list (string * value)) (x : string) : result value :=
  match list_find (fun b => bool_decide (fst b = x)) bound with
  | Some (_, (_, v)) => Ok v
  | None => Raise (NameError x)
  end.

(** The attributes of a [FluidFractionTestAnalysis] that [__init__]
    sets: [projector_post_process] is recorded by the argument given to
    [ErrorProjectionPostProcessTool]; [model] is the one argument of the
    base class's [__init__] that is kept apart from the parameters. *)
Record t : Type := mk {
  projector_post_process : value;
  model : value;
  project_parameters : value
}.

(** [def __init__(self, model, iteration,
                  varying_parameters = Parameters("{}"))] *)
Definition __init___signature : signature :=
  [ ("model", None);
    ("iteration", None);
    ("varying_parameters", Some (Parameters "{}")) ].

Definition __init__ (args : list value) : result t :=
  match bind_arguments __init___signature args with
  | Raise e => Raise e
  | Ok bound =>
      match local bound "iteration", local bound "model",
            local bound "varying_parameters" with
      | Ok iteration, Ok model, Ok varying_parameters =>
          Ok {| projector_post_process := iteration;
                model := model;
                project_parameters := varying_parameters |}
      | Raise e, _, _ | _, Raise e, _ | _, _, Raise e => Raise e
      end
  end.

(** The settings [_CreateSolver] hands to [FluidFractionTestSolver]. *)
Definition _CreateSolver (self : t) : value * value :=
  (model self, project_parameters self).

(** The [__main__] block up to the call of [Run]; [parameter_file] is
    the text read from [ProjectParameters.json]. *)
Definition main (parameter_file : string) : result t :=
  let parameters := Parameters parameter_file in
  let model := Model in
  __init__ [model; parameters].

End FluidFractionTestAnalysis.

(** ** tests/main_fsi_aitken_for_testing.py *)

Module MainFsiAitkenForTesting.

Definition is_letter (c : Ascii.ascii) : bool :=
  let n := Ascii.nat_of_ascii c in
  ((65 <=? n) && (n <=? 90) || (97 <=? n) && (n <=? 122) || (n =? 95))%nat.

Definition is_digit (c : Ascii.ascii) : bool :=
  let n := Ascii.nat_of_ascii c in ((48 <=? n) && (n <=? 57))%nat.

(** A name the Python grammar accepts after [def]: a letter or an
    underscore, then letters, digits and underscores. *)
Definition is_identifier (s : string) : bool :=
  match s with
  | EmptyString => false
  | String c rest =>
      is_letter c
      && forallb (fun c => is_letter c || is_digit c) (String.list_ascii_of_string rest)
  end.

(** A [def] of the file: its name, its decorators and the global names
    its body looks up when it runs. *)
Record FunctionDef : Type := mkDef {
  def_name : string;
  decorators : list string;
  globals_used : list string
}.

Record ClassDef : Type := mkClass {
  class_name : string;
  methods : list FunctionDef
}.

Definition MainCouplingPfemFemDemAitkenForTestingSolution : ClassDef :=
  mkClass "MainCouplingPfemFemDemAitkenForTestingSolution"
    [ mkDef "FinalizeSolutionStep" [] ["KM"];
      mkDef "CheckControlValuesForTesting" [] ["KratosPrintInfo"];
      mkDef "Finalize" [] ["super"; "MainCouplingFemDemForTestingSolution"] ].

Definition TestAnalytics : ClassDef :=
  mkClass "TestAnalytics"
    [ mkDef "setUp" [] [];
      mkDef "2d_fsi" ["classmethod"]
        ["KratosMultiphysics"; "MainCouplingPfemFemDemAitkenForTestingSolution"] ].

Definition classes : list ClassDef :=
  [ MainCouplingPfemFemDemAitkenForTestingSolution; TestAnalytics ].

(** The names bound at module level: the imports, the two functions and
    the two classes; [super] is a builtin. *)
Definition module_globals : list string :=
  [ "print_function"; "absolute_import"; "division"; "KratosMultiphysics";
    "Logger"; "KratosFemDem"; "MainCouplingPfemFemDemAitken"; "KratosUnittest";
    "os"; "shutil"; "Wait"; "KratosPrintInfo";
    "MainCouplingPfemFemDemAitkenForTestingSolution"; "TestAnalytics";
    "super" ].

(** Compilation of the file: every [def] needs an identifier. *)
Definition compile : result unit :=
  match list_find (fun d => negb (is_identifier (def_name d)))
          (classes ≫= methods) with
  | Some (_, d) => Raise (SyntaxError (def_name d))
  | None => Ok tt
  end.

(** Running a method body: each global name it uses is looked up. *)
Definition call (c : ClassDef) (method : string) : result unit :=
  match list_find (fun d => bool_decide (def_name d = method)) (methods c) with
  | None => Raise (NameError method)
  | Some (_, d) =>
      match list_find (fun x => bool_decide (x ∉ module_globals))
              (globals_used d) with
      | Some (_, x) => Raise (NameError x)
      | None => Ok tt
      end
  end.

(** The methods the unittest loader collects from a test case: those
    whose name starts with [test]. *)
Definition test_methods (c : ClassDef) : list string :=
  filter (fun x => String.prefix "test" x = true) (def_name <$> methods c).

(** [python main_fsi_aitken_for_testing.py]: the file is compiled, then
    [KratosUnittest.main()] runs the collected tests. *)
Definition run_as_main : result (list string) :=
  match compile with
  | Raise e => Raise e
  | Ok _ => Ok (test_methods TestAnalytics)
  end.

End MainFsiAitkenForTesting.

(** ** Concrete inputs *)

Module Examples.

(** An interface of two nodes that hold a displacement, with integers
    for scalars. *)
Definition interface_engine : CouplingInterfaceData.Engine (scalar := Z) :=
  CouplingInterfaceData.mkEngine
    {[ "interface" := [7%nat; 9%nat] ]}
    {[ "DISPLACEMENT" ]}
    {[ (7%nat, "DISPLACEMENT", 0%nat) := [1; 2; 3];
       (9%nat, "DISPLACEMENT", 0%nat) := [4; 5; 6] ]}.

Definition displacement (dimension : Z) : CouplingInterfaceData.t :=
  CouplingInterfaceData.mk "DISPLACEMENT" dimension "node_historical" "interface".

Definition tests_dir : string := "/kratos/applications/MappingApplication/tests".

Definition start : SmallTestsMPI.World :=
  SmallTestsMPI.mkWorld "/home/user" {[ "/home/user"; "/tmp"; tests_dir ]} [].

(** A run in which the MPI module imports and reports [size] processes,
    and no call into the mapping application raises. *)
Definition mpi_run (size : Z) : SmallTestsMPI.Env :=
  SmallTestsMPI.mkEnv (Ok size) tests_dir (fun _ => None).

(** A run in which the import of the MPI module fails in the engine. *)
Definition mpi_broken : SmallTestsMPI.Env :=
  SmallTestsMPI.mkEnv (Raise (EngineError "KratosMultiphysics.mpi"))
    tests_dir (fun _ => None).

(** A run in which every call into the mapping application fails. *)
Definition mapper_broken : SmallTestsMPI.Env :=
  SmallTestsMPI.mkEnv (Ok 2) tests_dir
    (fun _ => Some (EngineError "mapper")).


End Examples.

(** ** More vocabulary *)

Module PyMore.

(** A statement that only reads, and reads the same in the worlds [s]
    and [s']: it ends the same way in both and leaves both as they were. *)
Definition same_on {S A} (s s' : S) (m : M S A) : Prop :=
  fst (m s') = fst (m s) /\ snd (m s) = s /\ snd (m s') = s'.

End PyMore.

(** ** adaptative_remeshing_structural_mechanics_implicit_dynamic_solver.py *)

Module AdaptativeRemeshingImplicitMechanicalSolver.

(** The calls the solver makes into the engine and the base class. *)
Inductive event : Type :=
| BaseAddVariables
| AddNodalSolutionStepVariable (variable : string)
| PrintInfo (label message : string)
| CreateRemeshingProcess
| CreateMetricProcess.

(** Modelled from the spec: what the solver is given from outside.
    [CheckIfApplicationsAvailable] is [kratos_utilities]' test;
    [raises] tells, from the calls made so far, whether a call ends in
    an exception. *)
Record Env : Type := mkEnv {
  CheckIfApplicationsAvailable : string -> bool;
  raises : list event -> event -> option exn
}.

(** The attributes of the solver that its methods test and set, and
    the calls made so far.  An object the engine creates is identified by
    the position of the call that created it. *)
Record t : Type := mk {
  _remeshing_process : option nat;
  _metric_process : option nat;
  log : list event
}.

(** Modelled from the spec: a call into the engine; it is made, and
    then returns a new object or raises. *)
Definition engine_call (env : Env) (ev : event) : M t nat :=
  fun self =>
    let self' :=
      mk (_remeshing_process self) (_metric_process self) (log self ++ [ev]) in
    match raises env (log self) ev with
    | Some e => (Raise e, self')
    | None => (Ok (length (log self)), self')
    end.

(** The module-level flag: set to [True] in the branch in which the
    meshing application is available, to [False] in the other. *)
Definition missing_meshing_dependencies (env : Env) : bool :=
  if CheckIfApplicationsAvailable env "MeshingApplication" then true else false.

Definition AddVariables (env : Env) : M t unit :=
  engine_call env BaseAddVariables ;;
  (if negb (missing_meshing_dependencies env)
   then engine_call env (AddNodalSolutionStepVariable "NODAL_H") ;; ret tt
   else ret tt) ;;
  engine_call env
    (PrintInfo "::[AdaptativeRemeshingImplicitMechanicalSolver]:: "
       "Variables ADDED") ;;
  ret tt.

Definition _create_remeshing_process (env : Env) : M t nat :=
  engine_call env CreateRemeshingProcess.

Definition _create_metric_process (env : Env) : M t nat :=
  engine_call env CreateMetricProcess.

(** [if not hasattr(self, '_remeshing_process'): ... ; return ...] *)
Definition get_remeshing_process (env : Env) : M t nat :=
  fun self =>
    match _remeshing_process self with
    | Some process => (Ok process, self)
    | None =>
        (let* process := _create_remeshing_process env in
         fun self =>
           (Ok process, mk (Some process) (_metric_process self) (log self)))
          self
    end.

Definition get_metric_process (env : Env) : M t nat :=
  fun self =>
    match _metric_process self with
    | Some process => (Ok process, self)
    | None =>
        (let* process := _create_metric_process env in
         fun self =>
           (Ok process, mk (_remeshing_process self) (Some process) (log self)))
          self
    end.

(** *** Vocabulary of the statements below *)

Inductive kind : Type := Remeshing | Metric.

Definition get (env : Env) (k : kind) : M t nat :=
  match k with
  | Remeshing => get_remeshing_process env
  | Metric => get_metric_process env
  end.

Definition attribute (k : kind) (self : t) : option nat :=
  match k with
  | Remeshing => _remeshing_process self
  | Metric => _metric_process self
  end.

Definition creation (k : kind) : event :=
  match k with
  | Remeshing => CreateRemeshingProcess
  | Metric => CreateMetricProcess
  end.

(** A client asking for the processes one after the other. *)
Fixpoint gets (env : Env) (ks : list kind) : M t (list nat) :=
  match ks with
  | [] => ret []
  | k :: ks =>
      let* process := get env k in
      let* processes := gets env ks in
      ret (process :: processes)
  end.

End AdaptativeRemeshingImplicitMechanicalSolver.

Module MoreExamples.

(** An engine without the meshing application, in which no call raises;
    and one with it. *)
Definition without_meshing : AdaptativeRemeshingImplicitMechanicalSolver.Env :=
  AdaptativeRemeshingImplicitMechanicalSolver.mkEnv
    (fun _ => false) (fun _ _ => None).

Definition with_meshing : AdaptativeRemeshingImplicitMechanicalSolver.Env :=
  AdaptativeRemeshingImplicitMechanicalSolver.mkEnv
    (fun _ => true) (fun _ _ => None).

Definition fresh_solver : AdaptativeRemeshingImplicitMechanicalSolver.t :=
  AdaptativeRemeshingImplicitMechanicalSolver.mk None None [].

(** A process where the script's directory has been removed; and a block
    that removes the directory it was started from. *)
Definition without_tests_dir : SmallTestsMPI.World :=
  SmallTestsMPI.mkWorld "/home/user" {[ "/home/user"; "/tmp" ]} [].

Definition removing_block : M SmallTestsMPI.World unit :=
  fun w =>
    (Ok tt,
     SmallTestsMPI.mkWorld (SmallTestsMPI.cwd w)
       (SmallTestsMPI.directories w ∖ {[ "/home/user" ]})
       (SmallTestsMPI.log w)).

(** An interface whose two nodes hold a displacement and a velocity;
    and that interface with the displacements [10, 20, 0] and
    [30, 40, 0]. *)
Definition two_fields_engine : CouplingInterfaceData.Engine (scalar := Z) :=
  CouplingInterfaceData.mkEngine
    {[ "interface" := [7%nat; 9%nat] ]}
    {[ "DISPLACEMENT"; "VELOCITY" ]}
    {[ (7%nat, "DISPLACEMENT", 0%nat) := [1; 2; 3];
       (9%nat, "DISPLACEMENT", 0%nat) := [4; 5; 6];
       (7%nat, "VELOCITY", 0%nat) := [11; 12; 13];
       (9%nat, "VELOCITY", 0%nat) := [14; 15; 16] ]}.

Definition two_fields_engine_updated
  : CouplingInterfaceData.Engine (scalar := Z) :=
  CouplingInterfaceData.mkEngine
    {[ "interface" := [7%nat; 9%nat] ]}
    {[ "DISPLACEMENT"; "VELOCITY" ]}
    {[ (7%nat, "DISPLACEMENT", 0%nat) := [10; 20; 0];
       (9%nat, "DISPLACEMENT", 0%nat) := [30; 40; 0];
       (7%nat, "VELOCITY", 0%nat) := [11; 12; 13];
       (9%nat, "VELOCITY", 0%nat) := [14; 15; 16] ]}.

Definition velocity : CouplingInterfaceData.t :=
  CouplingInterfaceData.mk "VELOCITY" 3 "node_historical" "interface".

(** A run whose first non-constant test fails. *)
Definition nonconstant_broken : SmallTestsMPI.Env :=
  SmallTestsMPI.mkEnv (Ok 1) Examples.tests_dir
    (fun ev =>
       match ev with
       | SmallTestsMPI.Call _ SmallTestsMPI.TestMapNonConstantScalarValues _ =>
           Some (EngineError "values differ")
       | _ => None
       end).

End MoreExamples.

(** ** Calls out of the scripts, and how they end *)

Module Calls.

(** How the calls a script has made so far have ended: all of them
    returned; or the last one raised, and nothing has been called since;
    or one raised and the script went on calling. *)
Inductive ending : Type :=
| AllReturned
| LastRaised (e : exn)
| CalledAfterRaise.

(** [outcome before c] being the exception the call [c] ends with when
    it is made after the calls [before], if it raises: how the calls
    [calls], made after [before], have ended. *)
Fixpoint ending_of {C} (outcome : list C -> C -> option exn)
    (before calls : list C) : ending :=
  match calls with
  | [] => AllReturned
  | c :: rest =>
      match outcome before c with
      | None => ending_of outcome (before ++ [c]) rest
      | Some e =>
          match rest with
          | [] => LastRaised e
          | _ :: _ => CalledAfterRaise
          end
      end
  end.

(** The exception a result stands for, if any. *)
Definition raised {A} (r : result A) : option exn :=
  match r with
  | Ok _ => None
  | Raise e => Some e
  end.



End Calls.

Import Calls.

(** ** coupling_interface_data.py, against any engine *)

Module CouplingInterfaceDataOnEngine.
Import CouplingInterfaceData.

Section WithEngine.

Context {scalar : Type} (zero : scalar) {E : Type}.

(** The four calls of the class into the engine, against an engine
    whose state is an [E]: each returns or raises as the engine
    decides. *)
Record Calls : Type := mkCalls {
  model_getitem : string -> M E (list NodeId);
  GetVariable : string -> M E string;
  GetSolutionStepValue : NodeId -> string -> nat -> M E (list scalar);
  SetSolutionStepValue : NodeId -> string -> nat -> list scalar -> M E unit
}.

Context (engine : Calls).

Definition GetPythonList (self : t) (solution_step_index : nat)
  : M E (list scalar) :=
  let* data_mesh := model_getitem engine (geometry_name self) in
  let data :=
    list_mul (list_mul [zero] (Z.of_nat (length data_mesh))) (dimension self) in
  let* data_variable := GetVariable engine (name self) in
  let node_index := 0 in
  let* (data, node_index) :=
    for_in data_mesh (fun node '(data, node_index) =>
      let* data_value :=
        GetSolutionStepValue engine node data_variable solution_step_index in
      let* data :=
        for_in (range (dimension self)) (fun i data =>
          let* x := lift (getitem data_value i) in
          lift (setitem data (node_index * dimension self + i) x)) data in
      ret (data, node_index + 1)) (data, node_index) in
  ret data.

Definition GetNumpyArray (self : t) (solution_step_index : nat)
  : M E (list scalar) :=
  let* l := GetPythonList self solution_step_index in
  ret (np_asarray l).

Definition ApplyUpdateToData (self : t) (update : list scalar)
  : M E unit :=
  let* data_mesh := model_getitem engine (geometry_name self) in
  let* data_variable := GetVariable engine (name self) in
  let node_index := 0 in
  let updated_value := list_mul [zero] 3 in
  for_in data_mesh (fun node '(updated_value, node_index) =>
    let* updated_value :=
      for_in (range (dimension self)) (fun i updated_value =>
        let* x := lift (getitem update (node_index * dimension self + i)) in
        lift (setitem updated_value i x)) updated_value in
    SetSolutionStepValue engine node data_variable 0 updated_value ;;
    ret (updated_value, node_index + 1)) (updated_value, node_index) ;;
  ret tt.

End WithEngine.

Arguments Calls : clear implicits.

Section Engines.

Context {scalar : Type}.

(** The engine of [CouplingInterfaceData.Engine], whose storage always
    takes a value. *)
Definition storage : Calls scalar (Engine (scalar:=scalar)) :=
  mkCalls CouplingInterfaceData.model_getitem
          CouplingInterfaceData.GetVariable
          CouplingInterfaceData.GetSolutionStepValue
          CouplingInterfaceData.SetSolutionStepValue.

(** The calls, as the class makes them. *)
Inductive call : Type :=
| model_getitem_call (geometry_name : string)
| GetVariable_call (name : string)
| GetSolutionStepValue_call (node : NodeId) (variable : string)
    (solution_step_index : nat)
| SetSolutionStepValue_call (node : NodeId) (variable : string)
    (solution_step_index : nat) (value : list scalar).

(** Modelled from the spec: any engine at all.  What a call returns,
    and whether it raises instead, is the engine's to decide and may
    depend on every call made before; a write can fail as well as a
    read. *)
Record AnyEngine : Type := mkAnyEngine {
  on_model_getitem : list call -> string -> result (list NodeId);
  on_GetVariable : list call -> string -> result string;
  on_GetSolutionStepValue :
    list call -> NodeId -> string -> nat -> result (list scalar);
  on_SetSolutionStepValue :
    list call -> NodeId -> string -> nat -> list scalar -> result unit
}.



Definition outcome (eng : AnyEngine) (before : list call) (c : call)
  : option exn :=
  match c with
  | model_getitem_call geometry_name =>
      raised (on_model_getitem eng before geometry_name)
  | GetVariable_call name => raised (on_GetVariable eng before name)
  | GetSolutionStepValue_call node variable solution_step_index =>
      raised (on_GetSolutionStepValue eng before node variable
                solution_step_index)
  | SetSolutionStepValue_call node variable solution_step_index value =>
      raised (on_SetSolutionStepValue eng before node variable
                solution_step_index value)
  end.

Definition ended (eng : AnyEngine) (calls : list call) : ending :=
  ending_of (outcome eng) [] calls.

End Engines.

Arguments call : clear implicits.
Arguments AnyEngine : clear implicits.

End CouplingInterfaceDataOnEngine.

(** ** How the calls of SmallTestsMPI.py and of the remeshing solver end *)

Module SmallTestsMPICalls.
Import SmallTestsMPI.

Definition ended (env : Env) (w : World) : ending :=
  ending_of (fun _ ev => raises env ev) [] (log w).

End SmallTestsMPICalls.

Module AdaptativeRemeshingImplicitMechanicalSolverCalls.
Import AdaptativeRemeshingImplicitMechanicalSolver.

Definition ended (env : Env) (self : t) : ending :=
  ending_of (raises env) [] (log self).

End AdaptativeRemeshingImplicitMechanicalSolverCalls.

(** ** The other code of the scripts, by the calls it makes *)

Module EngineCalls.

Unset Elimination Schemes.

(** The values this code hands around without looking into them,
    except for their truth value and, for a sequence, their items.  An
    [Object] is one the engine returned; an [Instance] is an object of
    one of the scripts' own classes. *)
Inductive value : Type :=
| NoneValue
| Bool (b : bool)
| Int (z : Z)
| Str (s : string)
| Object (id : nat)
| Instance (class : string)
| Tuple (items : list value).

Set Elimination Schemes.

(** A call out of the script: of a function of the engine, of a method
    of one of its objects or of a base class (the receiver is then the
    first argument), or the import of one of its modules. *)
Record call : Type := mkCall {
  callee : string;
  arguments : list value
}.

(** Modelled from the spec: any engine at all.  What a call returns,
    and whether it raises instead, is the engine's to decide and may
    depend on every call made before. *)
Definition Engine : Type := list call -> call -> result value.

(** The calls made so far. *)
Definition World : Type := list call.

Definition invoke (eng : Engine) (callee : string) (arguments : list value)
  : M World value :=
  fun calls =>
    (eng calls (mkCall callee arguments),
     (calls ++ [mkCall callee arguments])%list).

(** [import name] and [from name import ...] *)
Definition import_module (eng : Engine) (name : string) : M World value :=
  invoke eng "import" [Str name].

(** The truth value of [v] in [if v: ...]. *)
Definition truthy (v : value) : bool :=
  match v with
  | NoneValue => false
  | Bool b => b
  | Int z => negb (z =? 0)%Z
  | Str s => negb (String.length s =? 0)%nat
  | Object _ => true
  | Instance _ => true
  | Tuple items => negb (length items =? 0)%nat
  end.


Definition outcome (eng : Engine) (before : list call) (c : call)
  : option exn :=
  raised (eng before c).

Definition ended (eng : Engine) (calls : World) : ending :=
  ending_of (outcome eng) [] calls.

Module CouplingInterfaceData.

(** The statements of the module, run when it is imported. *)
Definition module_body (eng : Engine) : M World unit :=
  import_module eng "co_simulation_tools" ;;
  import_module eng "numpy" ;;
  ret tt.

(** The attributes [__init__] sets. *)
Record t : Type := mk {
  name : value;
  solver : value;
  dimension : value;
  location : value;
  geometry_name : value;
  origin_data : value;
  destination_data : value;
  mapper_settings : value
}.

(** The JSON text of the defaults, given by its entries. *)
Definition default_config : value :=
  Tuple [ Tuple [Str "name"; Str "default"];
          Tuple [Str "dimension"; Int (-1)];
          Tuple [Str "geometry_name"; Str EmptyString];
          Tuple [Str "location"; Str "node_historical"] ].

Definition __init__ (eng : Engine) (custom_config solver : value)
  : M World t :=
  let* default_config :=
    invoke eng "cs_data_structure.Parameters" [default_config] in
  invoke eng "ValidateAndAssignDefaults" [custom_config; default_config] ;;
  let* entry := invoke eng "__getitem__" [custom_config; Str "name"] in
  let* name := invoke eng "GetString" [entry] in
  let* entry := invoke eng "__getitem__" [custom_config; Str "dimension"] in
  let* dimension := invoke eng "GetInt" [entry] in
  let* entry := invoke eng "__getitem__" [custom_config; Str "location"] in
  let* location := invoke eng "GetString" [entry] in
  let* entry :=
    invoke eng "__getitem__" [custom_config; Str "geometry_name"] in
  let* geometry_name := invoke eng "GetString" [entry] in
  ret {| name := name; solver := solver; dimension := dimension;
         location := location; geometry_name := geometry_name;
         origin_data := NoneValue; destination_data := NoneValue;
         mapper_settings := NoneValue |}.

End CouplingInterfaceData.

Module ConvectionDiffusionApplication.

(** The statements of the module, run when it is imported. *)
Definition module_body (eng : Engine) : M World unit :=
  import_module eng "KratosMultiphysics" ;;
  import_module eng "KratosConvectionDiffusionApplication" ;;
  let* application := invoke eng "KratosConvectionDiffusionApplication" [] in
  let application_name := Str "KratosConvectionDiffusionApplication" in
  invoke eng "KM._ImportApplication" [application; application_name] ;;
  ret tt.

End ConvectionDiffusionApplication.

Module MainKratos.

Definition module_body (eng : Engine) : M World unit :=
  import_module eng "KratosMultiphysics" ;;
  import_module eng "KratosMultiphysics.StructuralMechanicsApplication" ;;
  import_module eng "KratosMultiphysics.FemToDemApplication" ;;
  import_module eng "KratosMultiphysics.FemToDemApplication.MainCouplingFemDem" ;;
  let* model := invoke eng "KratosMultiphysics.Model" [] in
  let* solution :=
    invoke eng "MainCouplingFemDem.MainCoupledFemDem_Solution" [model] in
  invoke eng "Run" [solution] ;;
  ret tt.

End MainKratos.

Module FluidFractionTestAnalysis.

(** The attributes the methods read: [this] is the object itself, as
    the methods of the base class receive it; [projector_post_process]
    and [project_parameters] are set by [__init__], the others by the
    base class. *)
Record t : Type := mk {
  this : value;
  model : value;
  project_parameters : value;
  projector_post_process : value;
  vars_man : value;
  debug_info_counter : value;
  dem_volume_tool : value
}.

(** [__init__], its parameters bound; it gives [projector_post_process]
    and [project_parameters]. *)
Definition __init__ (eng : Engine) (this model iteration varying_parameters : value)
  : M World (value * value) :=
  import_module eng "KratosMultiphysics.SwimmingDEMApplication.hdf5_script" ;;
  let* projector_post_process :=
    invoke eng "hdf5_script.ErrorProjectionPostProcessTool" [iteration] in
  invoke eng "SwimmingDEMAnalysis.__init__" [this; model; varying_parameters] ;;
  let project_parameters := varying_parameters in
  ret (projector_post_process, project_parameters).



Definition _CreateSolver (eng : Engine) (self : t) : M World value :=
  import_module eng "fluid_fraction_test_solver" ;;
  let* field_utility := invoke eng "GetFieldUtility" [this self] in
  let* fluid_analysis := invoke eng "_GetFluidAnalysis" [this self] in
  let* fluid_solver := invoke eng "_GetSolver" [fluid_analysis] in
  let* dem_analysis := invoke eng "_GetDEMAnalysis" [this self] in
  let* dem_solver := invoke eng "_GetSolver" [dem_analysis] in
  invoke eng "sdem_solver.FluidFractionTestSolver"
    [ model self; project_parameters self; field_utility; fluid_solver;
      dem_solver; vars_man self ].



(** The module run as a program.  [parameter_file] is the text of
    [ProjectParameters.json], if the file can be opened; the file object
    is its own context manager, whose [__exit__] closes it and swallows
    nothing.  The [class] statement evaluates the default of
    [varying_parameters]; the constructor call gives two arguments,
    which are bound to [model] and [iteration]. *)
Definition main (eng : Engine) (parameter_file : option string)
  : M World unit :=
  import_module eng "KratosMultiphysics" ;;
  import_module eng "swimming_DEM_analysis" ;;
  import_module eng "swimming_DEM_procedures" ;;
  let* default_parameters := invoke eng "Parameters" [Str "{}"] in
  let* parameters :=
    match parameter_file with
    | None => raise (OSError "ProjectParameters.json")
    | Some text =>
        with_ (ret tt) (fun _ => ret false)
          (invoke eng "Parameters" [Str text])
          (unbound "parameters")
    end in
  let* model := invoke eng "Model" [] in
  let* output := invoke eng "Logger.GetDefaultOutput" [] in
  invoke eng "SetSeverity" [output; Str "Logger.Severity.WARNING"] ;;
  let test := Instance "FluidFractionTestAnalysis" in
  __init__ eng test model parameters default_parameters ;;
  invoke eng "Run" [test] ;;
  ret tt.

End FluidFractionTestAnalysis.

Module AdaptativeRemeshingImplicitMechanicalSolver.

(** The statements of the module, run when it is imported; they give
    the flag [missing_meshing_dependencies]. *)
Definition module_body (eng : Engine) : M World bool :=
  import_module eng "KratosMultiphysics" ;;
  import_module eng "KratosMultiphysics.StructuralMechanicsApplication" ;;
  import_module eng "KratosMultiphysics.kratos_utilities" ;;
  let* available :=
    invoke eng "kratos_utilities.CheckIfApplicationsAvailable"
      [Str "MeshingApplication"] in
  let* missing_meshing_dependencies :=
    if truthy available then
      import_module eng "KratosMultiphysics.MeshingApplication" ;;
      ret true
    else ret false in
  import_module eng
    "KratosMultiphysics.StructuralMechanicsApplication.structural_mechanics_implicit_dynamic_solver" ;;
  import_module eng
    "KratosMultiphysics.StructuralMechanicsApplication.auxiliar_methods_adaptative_solvers" ;;
  import_module eng
    "KratosMultiphysics.StructuralMechanicsApplication.adaptative_remeshing_structural_mechanics_utilities" ;;
  ret missing_meshing_dependencies.

(** [__init__] gives the two attributes it sets:
    [adaptative_remeshing_utilities] and [adaptative_remesh_parameters]. *)
Definition __init__ (eng : Engine) (this model custom_settings : value)
  : M World (value * value) :=
  let* adaptative_remeshing_utilities :=
    invoke eng
      "adaptative_remeshing_structural_mechanics_utilities.AdaptativeRemeshingMechanicalUtilities"
      [] in
  let* adaptative_remesh_parameters :=
    invoke eng "GetDefaultParameters" [adaptative_remeshing_utilities] in
  invoke eng "validate_and_transfer_matching_settings"
    [this; custom_settings; adaptative_remesh_parameters] ;;
  invoke eng "SetDefaultParameters"
    [adaptative_remeshing_utilities; adaptative_remesh_parameters] ;;
  invoke eng "ImplicitMechanicalSolver.__init__"
    [this; model; custom_settings] ;;
  invoke eng "KratosMultiphysics.Logger.PrintInfo"
    [ Str "::[AdaptativeRemeshingImplicitMechanicalSolver]:: ";
      Str "Construction finished" ] ;;
  ret (adaptative_remeshing_utilities, adaptative_remesh_parameters).



End AdaptativeRemeshingImplicitMechanicalSolver.

End EngineCalls.

(** ** More concrete inputs *)

Module CallsExamples.



End CallsExamples.

Module PyFacts.

Lemma respects_ret {S A} (R : relation S) `{!Reflexive R} (a : A) :
  respects R (ret (S:=S) a).
Proof. intros s. simpl. reflexivity. Qed.

Lemma respects_lift {S A} (R : relation S) `{!Reflexive R} (r : result A) :
  respects R (lift (S:=S) r).
Proof. intros s. simpl. reflexivity. Qed.

Lemma respects_bind {S A B} (R : relation S) `{!Transitive R}
    (m : M S A) (k : A -> M S B) :
  respects R m -> (forall a, respects R (k a)) -> respects R (bind m k).
Proof.
  intros Hm Hk s. unfold bind. specialize (Hm s).
  destruct (m s) as [[a|e] s']; simpl in Hm; [|done].
  etransitivity; [exact Hm | apply Hk].
Qed.

Lemma respects_for_in {S A X} (R : relation S) `{!PreOrder R}
    (xs : list X) (body : X -> A -> M S A) acc :
  (forall x a, x ∈ xs -> respects R (body x a)) ->
  respects R (for_in xs body acc).
Proof.
  revert acc. induction xs as [|x xs IH]; intros acc Hbody; simpl.
  - apply respects_ret, _.
  - apply respects_bind; [apply _ | apply Hbody; set_solver |].
    intros a. apply IH. intros y b Hy. apply Hbody. set_solver.
Qed.

Lemma read_only_ret {S A} (a : A) : read_only (ret (S:=S) a).
Proof. apply respects_ret, _. Qed.

Lemma read_only_lift {S A} (r : result A) : read_only (lift (S:=S) r).
Proof. apply respects_lift, _. Qed.

Lemma read_only_bind {S A B} (m : M S A) (k : A -> M S B) :
  read_only m -> (forall a, read_only (k a)) -> read_only (bind m k).
Proof. apply respects_bind, _. Qed.

Lemma read_only_for_in {S A X} (xs : list X) (body : X -> A -> M S A) acc :
  (forall x a, read_only (body x a)) -> read_only (for_in xs body acc).
Proof. intros H. apply respects_for_in; [apply _ |]. intros x a _. apply H. Qed.

(** A loop whose body keeps an invariant [I] of the loop-carried
    variables respects [R] as soon as the body does under [I]. *)
Lemma respects_for_in_invariant {S A X} (R : relation S) `{!PreOrder R}
    (I : A -> Prop) (xs : list X) (body : X -> A -> M S A) acc :
  I acc ->
  (forall x a s, I a ->
     R s (snd (body x a s)) /\ forall a', fst (body x a s) = Ok a' -> I a') ->
  respects R (for_in xs body acc).
Proof.
  intros Hacc Hbody. revert acc Hacc.
  induction xs as [|x xs IH]; intros acc Hacc s; simpl; [reflexivity|].
  unfold bind. destruct (Hbody x acc s Hacc) as [HR HI].
  destruct (body x acc s) as [[a|e] s1]; simpl in *; [|done].
  etransitivity; [exact HR | apply IH; by apply HI].
Qed.

End PyFacts.

Module CouplingInterfaceDataSpec.
Import CouplingInterfaceData PyFacts.
Section WithScalar.

Context {scalar : Type} (zero : scalar).
Implicit Types (l data update value : list scalar) (eng : Engine (scalar:=scalar)).

Lemma index_nat l (i : nat) :
  (i < length l)%nat -> index l (Z.of_nat i) = Ok i.
Proof.
  intros Hi. unfold index.
  destruct (decide _) as [_|Hn]; [by rewrite Nat2Z.id | lia].
Qed.

Lemma index_ge l (i : nat) :
  (length l <= i)%nat -> index l (Z.of_nat i) = Raise IndexError.
Proof.
  intros Hi. unfold index.
  destruct (decide _) as [?|_]; [lia|].
  destruct (decide _) as [?|_]; [lia|done].
Qed.

Lemma getitem_nat l (i : nat) x :
  l !! i = Some x -> getitem l (Z.of_nat i) = Ok x.
Proof.
  intros Hx. unfold getitem.
  rewrite index_nat; [by rewrite Hx | by eapply lookup_lt_Some].
Qed.

Lemma getitem_ge l (i : nat) :
  (length l <= i)%nat -> getitem l (Z.of_nat i) = Raise IndexError.
Proof. intros Hi. unfold getitem. by rewrite index_ge. Qed.

Lemma setitem_nat l (i : nat) x :
  (i < length l)%nat -> setitem l (Z.of_nat i) x = Ok (<[i := x]> l).
Proof. intros Hi. unfold setitem. by rewrite index_nat. Qed.

Lemma setitem_ge l (i : nat) x :
  (length l <= i)%nat -> setitem l (Z.of_nat i) x = Raise IndexError.
Proof. intros Hi. unfold setitem. by rewrite index_ge. Qed.

Lemma getitem_error l i e : getitem l i = Raise e -> e = IndexError.
Proof.
  unfold getitem, index. repeat case_decide; try destruct (l !! _); congruence.
Qed.

Lemma setitem_error l i x e : setitem l i x = Raise e -> e = IndexError.
Proof. unfold setitem, index. repeat case_decide; congruence. Qed.

Lemma list_mul_length l (k : Z) :
  length (list_mul l k) = (Z.to_nat k * length l)%nat.
Proof.
  unfold list_mul. induction (Z.to_nat k) as [|n IH]; simpl; [done|].
  rewrite length_app, IH. lia.
Qed.

Lemma list_mul_zero (k : Z) : list_mul [zero] k = replicate (Z.to_nat k) zero.
Proof.
  unfold list_mul. induction (Z.to_nat k) as [|n IH]; simpl; [done|].
  by rewrite IH.
Qed.

(** The inner loop of [GetPythonList] on one node: it copies the
    components [s .. s+len) of the node's value to the positions
    [base+s .. base+s+len) of [data] and touches nothing else. *)
Lemma copy_components_to_data value (offset : Z) (base s len : nat) data eng :
  offset = Z.of_nat base ->
  (s + len <= length value)%nat ->
  (base + s + len <= length data)%nat ->
  exists data',
    for_in (Z.of_nat <$> seq s len) (fun i data =>
      let* x := lift (getitem value i) in
      lift (setitem data (offset + i) x)) data eng = (Ok data', eng)
    /\ length data' = length data
    /\ forall j : nat,
         data' !! j =
         if decide (base + s <= j < base + s + len)%nat
         then value !! (j - base)%nat else data !! j.
Proof.
  intros ->. revert s data. induction len as [|len IH]; intros s data Hv Hd.
  - exists data. simpl. split_and!; [done..|].
    intros j. case_decide; [lia|done].
  - destruct (lookup_lt_is_Some_2 value s) as [x Hx]; [lia|].
    destruct (IH (S s) (<[(base + s)%nat := x]> data)) as (data' & Hrun & Hlen & Hget);
      [lia | rewrite length_insert; lia |].
    exists data'. split_and!.
    + simpl. unfold bind at 1. unfold bind at 1. unfold lift at 1.
      rewrite (getitem_nat _ _ _ Hx). unfold lift at 1.
      replace (Z.of_nat base + Z.of_nat s) with (Z.of_nat (base + s)) by lia.
      rewrite setitem_nat by lia. exact Hrun.
    + by rewrite Hlen, length_insert.
    + intros j. rewrite Hget. repeat case_decide; try lia; try done.
      * destruct (decide (j = (base + s)%nat)) as [->|Hne]; [|lia].
        rewrite list_lookup_insert_eq by lia.
        by replace (base + s - base)%nat with s by lia.
      * rewrite list_lookup_insert_ne by lia. done.
Qed.

(** The outer loop of [GetPythonList], started at node number [k]. *)
Lemma gather_nodes (self : t) (step : nat) (var : string) eng
    (rest : list NodeId) (k : nat) data :
  0 <= dimension self ->
  (forall node, node ∈ rest ->
     exists v, solution_step_data eng !! (node, var, step) = Some v
               /\ (Z.to_nat (dimension self) <= length v)%nat) ->
  ((k + length rest) * Z.to_nat (dimension self) <= length data)%nat ->
  exists data',
    for_in rest (fun node '(data, node_index) =>
      let* data_value := GetSolutionStepValue node var step in
      let* data :=
        for_in (range (dimension self)) (fun i data =>
          let* x := lift (getitem data_value i) in
          lift (setitem data (node_index * dimension self + i) x)) data in
      ret (data, node_index + 1)) (data, Z.of_nat k) eng
    = (Ok (data', Z.of_nat (k + length rest)), eng)
    /\ length data' = length data
    /\ (forall j : nat,
          (j < k * Z.to_nat (dimension self))%nat -> data' !! j = data !! j)
    /\ (forall (k' : nat) node v (i : nat),
          rest !! k' = Some node ->
          solution_step_data eng !! (node, var, step) = Some v ->
          (i < Z.to_nat (dimension self))%nat ->
          data' !! ((k + k') * Z.to_nat (dimension self) + i)%nat = v !! i).
Proof.
  intros Hd. set (dn := Z.to_nat (dimension self)).
  revert k data. induction rest as [|node rest IH]; intros k data Hval Hlen.
  - exists data. simpl. rewrite Nat.add_0_r. split_and!; [done..|].
    intros k' ? ? ? Hk'. by rewrite lookup_nil in Hk'.
  - destruct (Hval node) as (v & Hv & Hvlen); [set_solver|].
    simpl in Hlen.
    destruct (copy_components_to_data v (Z.of_nat k * dimension self)
                (k * dn) 0 dn data eng) as (data1 & Hrun1 & Hlen1 & Hget1);
      [subst dn; nia | lia | nia |].
    destruct (IH (S k) data1) as (data' & Hrun & Hlen' & Hold & Hnew);
      [intros n Hn; apply Hval; set_solver | rewrite Hlen1; nia |].
    exists data'. split_and!.
    + simpl. unfold bind at 1. unfold bind at 1.
      unfold GetSolutionStepValue at 1. rewrite Hv.
      unfold bind at 1. unfold range. fold dn. rewrite Hrun1.
      unfold ret at 1.
      replace (Z.of_nat k + 1) with (Z.of_nat (S k)) by lia.
      replace (k + S (length rest))%nat with (S k + length rest)%nat by lia.
      exact Hrun.
    + by rewrite Hlen', Hlen1.
    + intros j Hj. rewrite Hold by nia. rewrite Hget1.
      case_decide; [lia|done].
    + intros [|k'] n w i Hn Hw Hi.
      * simpl in Hn. injection Hn as <-. rewrite Hv in Hw. injection Hw as <-.
        rewrite Nat.add_0_r. rewrite Hold by nia. rewrite Hget1.
        case_decide; [|lia]. f_equal. lia.
      * simpl in Hn.
        replace (k + S k')%nat with (S k + k')%nat by lia.
        by eapply Hnew.
Qed.

(** [GetPythonList] on a mesh whose nodes hold enough components: the
    list it returns, entry by entry. *)
Lemma GetPythonList_run (self : t) (solution_step_index : nat) eng
    (nodes : list NodeId) (d : nat) :
  dimension self = Z.of_nat d ->
  model eng !! geometry_name self = Some nodes ->
  name self ∈ variables eng ->
  (forall node, node ∈ nodes ->
     exists v,
       solution_step_data eng !! (node, name self, solution_step_index) = Some v
       /\ (d <= length v)%nat) ->
  exists data,
    GetPythonList zero self solution_step_index eng = (Ok data, eng)
    /\ length data = (length nodes * d)%nat
    /\ forall (k : nat) node v (i : nat),
         nodes !! k = Some node ->
         solution_step_data eng !! (node, name self, solution_step_index) = Some v ->
         (i < d)%nat ->
         is_Some (v !! i) /\ data !! (k * d + i)%nat = v !! i.
Proof.
  intros Hd Hmesh Hvar Hval.
  assert (Hdn : Z.to_nat (dimension self) = d) by lia.
  set (data0 := list_mul (list_mul [zero] (Z.of_nat (length nodes))) (dimension self)).
  assert (Hlen0 : length data0 = (length nodes * d)%nat).
  { subst data0. rewrite !list_mul_length. simpl. lia. }
  destruct (gather_nodes self solution_step_index (name self) eng nodes 0 data0)
    as (data & Hrun & Hlen & _ & Hget).
  { lia. }
  { intros node Hnode. destruct (Hval node Hnode) as (v & Hv & Hle).
    exists v. split; [done | lia]. }
  { rewrite Hdn. lia. }
  exists data. split_and!.
  - unfold GetPythonList. unfold bind at 1. unfold model_getitem at 1.
    rewrite Hmesh. unfold bind at 1. unfold GetVariable at 1.
    rewrite decide_True by done. unfold bind at 1.
    fold data0. change (Z.of_nat 0) with 0 in Hrun. rewrite Hrun. done.
  - by rewrite Hlen.
  - intros k node v i Hk Hv Hi. split.
    + apply lookup_lt_is_Some_2.
      destruct (Hval node) as (v' & Hv' & Hle);
        [by eapply list_elem_of_lookup_2|].
      rewrite Hv in Hv'. injection Hv' as <-. lia.
    + rewrite <- Hdn. rewrite <- (Hget k node v i Hk Hv); [done | lia].
Qed.

(** C1. For a geometry whose mesh holds the nodes [nodes] and a
    configured dimension [d >= 0], [GetPythonList] returns a flat list
    of length [n*d] whose entry [k*d+i] is component [i] of the value the
    [k]-th node holds for the configured variable at the requested
    solution step, for every [k < n] and [i < d]; the engine is left as
    it was. *)
Theorem GetPythonList_flat_list (self : t) (solution_step_index : nat) eng
    (nodes : list NodeId) (d : nat) :
  dimension self = Z.of_nat d ->
  model eng !! geometry_name self = Some nodes ->
  name self ∈ variables eng ->
  (forall node, node ∈ nodes ->
     exists v,
       solution_step_data eng !! (node, name self, solution_step_index) = Some v
       /\ (d <= length v)%nat) ->
  exists data,
    GetPythonList zero self solution_step_index eng = (Ok data, eng)
    /\ length data = (length nodes * d)%nat
    /\ forall (k : nat) node v (i : nat),
         nodes !! k = Some node ->
         solution_step_data eng !! (node, name self, solution_step_index) = Some v ->
         (i < d)%nat ->
         is_Some (v !! i) /\ data !! (k * d + i)%nat = v !! i.
Proof. apply GetPythonList_run. Qed.

(** The inner loop of [ApplyUpdateToData] on one node, when it fits:
    entries [s .. s+len) of the buffer are overwritten with the entries
    of [update] from [base+s] on; the rest of the buffer stays. *)
Lemma fill_buffer update (offset : Z) (base s len : nat) (buffer : list scalar) eng :
  offset = Z.of_nat base ->
  (base + s + len <= length update)%nat ->
  (s + len <= length buffer)%nat ->
  exists buffer',
    for_in (Z.of_nat <$> seq s len) (fun i updated_value =>
      let* x := lift (getitem update (offset + i)) in
      lift (setitem updated_value i x)) buffer eng = (Ok buffer', eng)
    /\ length buffer' = length buffer
    /\ forall j : nat,
         buffer' !! j =
         if decide (s <= j < s + len)%nat
         then update !! (base + j)%nat else buffer !! j.
Proof.
  intros ->. revert s buffer. induction len as [|len IH]; intros s buffer Hu Hb.
  - exists buffer. simpl. split_and!; [done..|].
    intros j. case_decide; [lia|done].
  - destruct (lookup_lt_is_Some_2 update (base + s)) as [x Hx]; [lia|].
    destruct (IH (S s) (<[s := x]> buffer)) as (buffer' & Hrun & Hlen & Hget);
      [lia | rewrite length_insert; lia |].
    exists buffer'. split_and!.
    + simpl. unfold bind at 1. unfold bind at 1. unfold lift at 1.
      replace (Z.of_nat base + Z.of_nat s) with (Z.of_nat (base + s)) by lia.
      rewrite (getitem_nat _ _ _ Hx). unfold lift at 1.
      rewrite setitem_nat by lia. exact Hrun.
    + by rewrite Hlen, length_insert.
    + intros j. rewrite Hget. repeat case_decide; try lia; try done.
      * destruct (decide (j = s)) as [->|Hne]; [|lia].
        by rewrite list_lookup_insert_eq by lia.
      * by rewrite list_lookup_insert_ne by lia.
Qed.

(** The same loop when it runs past the end of the buffer: whatever
    [update] holds, it ends in an [IndexError], raised by the read of
    [update] or at the latest by the write to the buffer. *)
Lemma buffer_overflow update (offset : Z) (s len : nat) (buffer : list scalar) eng :
  (s <= length buffer < s + len)%nat ->
  for_in (Z.of_nat <$> seq s len) (fun i updated_value =>
    let* x := lift (getitem update (offset + i)) in
    lift (setitem updated_value i x)) buffer eng = (Raise IndexError, eng).
Proof.
  revert s buffer. induction len as [|len IH]; intros s buffer Hs; [lia|].
  simpl. unfold bind at 1. unfold bind at 1. unfold lift at 1.
  destruct (getitem update (offset + Z.of_nat s)) as [x|e] eqn:Hget.
  - unfold lift at 1.
    destruct (decide (s = length buffer)) as [Heq|Hne].
    + by rewrite setitem_ge by lia.
    + rewrite setitem_nat by lia. apply IH. rewrite length_insert. lia.
  - by rewrite (getitem_error _ _ _ Hget).
Qed.

Lemma node_update_length (d : nat) update (k : nat) :
  (d <= 3)%nat -> ((k + 1) * d <= length update)%nat ->
  length (node_update zero d update k) = 3%nat.
Proof.
  intros Hd Hu. unfold node_update.
  rewrite length_app, length_take, length_drop, length_replicate. lia.
Qed.

Lemma node_update_component (d : nat) update (k i : nat) :
  ((k + 1) * d <= length update)%nat -> (i < d)%nat ->
  node_update zero d update k !! i = update !! (k * d + i)%nat.
Proof.
  intros Hu Hi. unfold node_update.
  rewrite lookup_app_l by (rewrite length_take, length_drop; lia).
  rewrite lookup_take_lt by done. by rewrite lookup_drop.
Qed.

Lemma node_update_padding (d : nat) update (k j : nat) :
  ((k + 1) * d <= length update)%nat -> (d <= j < 3)%nat ->
  node_update zero d update k !! j = Some zero.
Proof.
  intros Hu Hj. unfold node_update.
  rewrite lookup_app_r by (rewrite length_take, length_drop; lia).
  apply lookup_replicate_2. rewrite length_take, length_drop. lia.
Qed.

(** The outer loop of [ApplyUpdateToData] for a dimension of at most
    three, started at node number [k] with a buffer whose entries from
    [d] on are still zero. *)
Lemma apply_nodes (self : t) (var : string) update eng
    (rest : list NodeId) (k : nat) (buffer : list scalar) :
  let d := Z.to_nat (dimension self) in
  (d <= 3)%nat ->
  length buffer = 3%nat ->
  (forall j : nat, (d <= j < 3)%nat -> buffer !! j = Some zero) ->
  ((k + length rest) * d <= length update)%nat ->
  exists buffer',
    for_in rest (fun node '(updated_value, node_index) =>
      let* updated_value :=
        for_in (range (dimension self)) (fun i updated_value =>
          let* x := lift (getitem update (node_index * dimension self + i)) in
          lift (setitem updated_value i x)) updated_value in
      SetSolutionStepValue node var 0 updated_value ;;
      ret (updated_value, node_index + 1)) (buffer, Z.of_nat k) eng
    = (Ok (buffer', Z.of_nat (k + length rest)),
       set_nodes zero var d update rest k eng).
Proof.
  intros d Hd. revert k buffer eng.
  induction rest as [|node rest IH]; intros k buffer eng Hlen Hpad Hu.
  - exists buffer. simpl. by rewrite Nat.add_0_r.
  - simpl in Hu.
    assert (exists buffer1,
      for_in (Z.of_nat <$> seq 0 d) (fun i updated_value =>
        let* x := lift (getitem update (Z.of_nat k * dimension self + i)) in
        lift (setitem updated_value i x)) buffer eng = (Ok buffer1, eng)
      /\ length buffer1 = length buffer
      /\ forall j : nat,
           buffer1 !! j =
           if decide (0 <= j < 0 + d)%nat
           then update !! (k * d + j)%nat else buffer !! j)
      as (buffer1 & Hrun1 & Hlen1 & Hget1).
    { destruct (decide (0 <= dimension self)) as [Hpos|Hneg].
      - apply fill_buffer; [subst d; nia | nia | lia].
      - replace d with 0%nat by lia. exists buffer. simpl.
        split_and!; [done..|]. by intros j. }
    assert (Hval : buffer1 = node_update zero d update k).
    { apply list_eq. intros j. rewrite Hget1.
      destruct (decide (j < d)%nat) as [Hj|Hj].
      - rewrite decide_True by lia.
        rewrite node_update_component by (done || nia). done.
      - rewrite decide_False by lia.
        destruct (decide (j < 3)%nat) as [Hj3|Hj3].
        + rewrite node_update_padding by (lia || nia). apply Hpad. lia.
        + rewrite !lookup_ge_None_2; [done | |lia].
          rewrite node_update_length by (done || nia). lia. }
    destruct (IH (S k) buffer1
                (snd (SetSolutionStepValue node var 0 buffer1 eng)))
      as (buffer' & Hrun); [lia | | lia |].
    { intros j Hj. rewrite Hget1, decide_False by lia. by apply Hpad. }
    exists buffer'.
    simpl. unfold bind at 1. unfold bind at 1.
    unfold range. fold d. rewrite Hrun1.
    unfold bind at 1. unfold SetSolutionStepValue at 1. unfold ret at 1.
    replace (Z.of_nat k + 1) with (Z.of_nat (S k)) by lia.
    replace (k + S (length rest))%nat with (S k + length rest)%nat by lia.
    rewrite <- Hval. exact Hrun.
Qed.

(** *** The frame of the engine writes *)

#[local] Instance same_but_preorder var (nodes : list NodeId) :
  PreOrder (same_but (scalar:=scalar) var nodes).
Proof.
  split.
  - intros eng. by split_and!.
  - intros e1 e2 e3 (Hm1 & Hv1 & Hd1) (Hm2 & Hv2 & Hd2). split_and!.
    + by rewrite Hm2.
    + by rewrite Hv2.
    + intros node v step Hne. by rewrite Hd2, Hd1.
Qed.

Lemma SetSolutionStepValue_same_but var (nodes : list NodeId) node value :
  node ∈ nodes ->
  respects (same_but var nodes)
    (SetSolutionStepValue (scalar:=scalar) node var 0 value).
Proof.
  intros Hin eng. unfold SetSolutionStepValue, same_but. simpl.
  split_and!; [done..|]. intros n v step Hne.
  apply lookup_insert_ne. intros [= ? ? ?]. subst. by apply Hne.
Qed.

Lemma set_nodes_same_but var (d : nat) update (nodes : list NodeId) k eng :
  same_but var nodes eng (set_nodes zero var d update nodes k eng).
Proof.
  revert k eng. induction nodes as [|node rest IH]; intros k eng; simpl.
  - reflexivity.
  - etransitivity.
    + apply (SetSolutionStepValue_same_but var (node :: rest) node
               (node_update zero d update k)). set_solver.
    + destruct (IH (S k)
        (snd (SetSolutionStepValue node var 0 (node_update zero d update k) eng)))
        as (Hm & Hv & Hd).
      split_and!; [done..|]. intros n v step Hne. apply Hd.
      intros (? & ? & ?). apply Hne. split_and!; [|done..].
      by apply list_elem_of_further.
Qed.

(** With every node once in the container, node number [k'] ends up
    holding the value written for it. *)
Lemma set_nodes_lookup var (d : nat) update (nodes : list NodeId) k eng
    (k' : nat) node :
  NoDup nodes -> nodes !! k' = Some node ->
  solution_step_data (set_nodes zero var d update nodes k eng)
    !! (node, var, 0%nat)
  = Some (node_update zero d update (k + k')).
Proof.
  revert k eng k'. induction nodes as [|n rest IH]; intros k eng k' Hnd Hk'.
  - by rewrite lookup_nil in Hk'.
  - apply NoDup_cons in Hnd as [Hnotin Hnd]. destruct k' as [|k']; simpl in *.
    + injection Hk' as ->. rewrite Nat.add_0_r.
      destruct (set_nodes_same_but var d update rest (S k)
        (snd (SetSolutionStepValue node var 0 (node_update zero d update k) eng)))
        as (_ & _ & Hd).
      rewrite Hd by (intros (? & _); done).
      unfold SetSolutionStepValue. simpl. apply lookup_insert_eq.
    + replace (k + S k')%nat with (S k + k')%nat by lia. by apply IH.
Qed.

(** Without that assumption, each node of the container still holds
    one of the values written. *)
Lemma set_nodes_written var (d : nat) update (nodes : list NodeId) k eng node :
  node ∈ nodes ->
  exists k' : nat,
    (k <= k' < k + length nodes)%nat
    /\ solution_step_data (set_nodes zero var d update nodes k eng)
         !! (node, var, 0%nat)
       = Some (node_update zero d update k').
Proof.
  revert k eng. induction nodes as [|n rest IH]; intros k eng Hin.
  - by apply elem_of_nil in Hin.
  - simpl. destruct (decide (node ∈ rest)) as [Hrest|Hrest].
    + destruct (IH (S k)
        (snd (SetSolutionStepValue n var 0 (node_update zero d update k) eng))
        Hrest) as (k' & Hk' & Hget).
      exists k'. split; [lia | done].
    + apply elem_of_cons in Hin as [->|?]; [|done].
      exists k. split; [lia|].
      destruct (set_nodes_same_but var d update rest (S k)
        (snd (SetSolutionStepValue n var 0 (node_update zero d update k) eng)))
        as (_ & _ & Hd).
      rewrite Hd by (intros (? & _); done).
      unfold SetSolutionStepValue. simpl. apply lookup_insert_eq.
Qed.

Lemma read_only_model_getitem geometry :
  read_only (model_getitem (scalar:=scalar) geometry).
Proof. intros eng. unfold model_getitem. by destruct (model eng !! _). Qed.

Lemma read_only_GetVariable var : read_only (GetVariable (scalar:=scalar) var).
Proof. intros eng. unfold GetVariable. by case_decide. Qed.

Lemma read_only_GetSolutionStepValue node var step :
  read_only (GetSolutionStepValue (scalar:=scalar) node var step).
Proof.
  intros eng. unfold GetSolutionStepValue.
  by destruct (solution_step_data eng !! _).
Qed.

Lemma read_only_GetPythonList (self : t) (solution_step_index : nat) :
  read_only (GetPythonList zero self solution_step_index).
Proof.
  unfold GetPythonList.
  apply read_only_bind; [apply read_only_model_getitem | intros data_mesh].
  apply read_only_bind; [apply read_only_GetVariable | intros var].
  apply read_only_bind.
  - apply read_only_for_in. intros node [data node_index].
    apply read_only_bind; [apply read_only_GetSolutionStepValue | intros v].
    apply read_only_bind; [|intros ?; apply read_only_ret].
    apply read_only_for_in. intros i data'.
    apply read_only_bind; [apply read_only_lift | intros x; apply read_only_lift].
  - intros [data node_index]. apply read_only_ret.
Qed.

Lemma read_only_GetNumpyArray (self : t) (solution_step_index : nat) :
  read_only (GetNumpyArray zero self solution_step_index).
Proof.
  unfold GetNumpyArray.
  apply read_only_bind; [apply read_only_GetPythonList | intros l].
  apply read_only_ret.
Qed.

Lemma ApplyUpdateToData_same_but (self : t) update eng :
  same_but (name self) (default [] (model eng !! geometry_name self))
    eng (snd (ApplyUpdateToData zero self update eng)).
Proof.
  unfold ApplyUpdateToData. unfold bind at 1. unfold model_getitem at 1.
  destruct (model eng !! geometry_name self) as [nodes|]; simpl; [|reflexivity].
  unfold bind at 1. unfold GetVariable at 1.
  case_decide; simpl; [|reflexivity].
  refine (respects_bind (same_but (name self) nodes) _ _ _ _ eng).
  - apply respects_for_in; [apply _|]. intros node [buffer node_index] Hnode.
    apply respects_bind; [apply _| |].
    + apply respects_for_in; [apply _|]. intros i b _.
      apply respects_bind; [apply _| |]; [|intros x]; apply respects_lift, _.
    + intros b. apply respects_bind; [apply _| |].
      * by apply SetSolutionStepValue_same_but.
      * intros _. apply respects_ret, _.
  - intros ?. apply respects_ret, _.
Qed.

(** *** [ApplyUpdateToData] *)

Lemma update_fits (self : t) (n : nat) update :
  Z.of_nat n * dimension self <= Z.of_nat (length update) ->
  (n * Z.to_nat (dimension self) <= length update)%nat.
Proof. intros H. destruct (decide (0 <= dimension self)); nia. Qed.

(** For a dimension of at most three and an update that is long
    enough, the call returns, and the engine it leaves is the one
    obtained by [SetSolutionStepValue] on each node in turn. *)
Lemma ApplyUpdateToData_run (self : t) update eng (nodes : list NodeId) :
  dimension self <= 3 ->
  model eng !! geometry_name self = Some nodes ->
  name self ∈ variables eng ->
  Z.of_nat (length nodes) * dimension self <= Z.of_nat (length update) ->
  ApplyUpdateToData zero self update eng
  = (Ok tt,
     set_nodes zero (name self) (Z.to_nat (dimension self)) update nodes 0 eng).
Proof.
  intros Hd Hmesh Hvar Hu. apply update_fits in Hu.
  destruct (apply_nodes self (name self) update eng nodes 0 (list_mul [zero] 3))
    as (buffer' & Hrun); [lia | done | | done |].
  { intros j Hj. rewrite list_mul_zero. apply lookup_replicate_2. lia. }
  unfold ApplyUpdateToData. unfold bind at 1. unfold model_getitem at 1.
  rewrite Hmesh. unfold bind at 1. unfold GetVariable at 1.
  rewrite decide_True by done. unfold bind at 1.
  change (Z.of_nat 0) with 0 in Hrun. by rewrite Hrun.
Qed.

(** For a dimension above three the first node overflows the
    three-element buffer, before anything is handed to the engine. *)
Lemma ApplyUpdateToData_overflow (self : t) update eng (nodes : list NodeId) :
  model eng !! geometry_name self = Some nodes ->
  name self ∈ variables eng ->
  3 < dimension self ->
  nodes <> [] ->
  ApplyUpdateToData zero self update eng = (Raise IndexError, eng).
Proof.
  intros Hmesh Hvar Hd Hne. destruct nodes as [|node rest]; [done|].
  unfold ApplyUpdateToData. unfold bind at 1. unfold model_getitem at 1.
  rewrite Hmesh. unfold bind at 1. unfold GetVariable at 1.
  rewrite decide_True by done. unfold bind at 1.
  simpl for_in. unfold bind at 1. unfold bind at 1. unfold range.
  rewrite buffer_overflow; [done|].
  rewrite list_mul_length. simpl. lia.
Qed.

(** C2, as the code has it. For a geometry whose mesh holds the nodes
    [nodes], each of them once, a configured dimension [d <= 3] and an
    update of length at least [n*d], [ApplyUpdateToData] returns and
    the value node number [k] then holds for the configured variable at
    solution step 0 has [update[k*d+i]] as its component [i], for every
    [i < d]; the engine it leaves is the one reached by calling the
    engine's [SetSolutionStepValue] once per node. *)
Theorem ApplyUpdateToData_stores (self : t) update eng (nodes : list NodeId) :
  dimension self <= 3 ->
  model eng !! geometry_name self = Some nodes ->
  name self ∈ variables eng ->
  NoDup nodes ->
  Z.of_nat (length nodes) * dimension self <= Z.of_nat (length update) ->
  let d := Z.to_nat (dimension self) in
  exists eng',
    ApplyUpdateToData zero self update eng = (Ok tt, eng')
    /\ eng' = set_nodes zero (name self) d update nodes 0 eng
    /\ forall (k : nat) node,
         nodes !! k = Some node ->
         exists v,
           solution_step_data eng' !! (node, name self, 0%nat) = Some v
           /\ forall i : nat,
                (i < d)%nat ->
                exists x, v !! i = Some x /\ update !! (k * d + i)%nat = Some x.
Proof.
  intros Hd Hmesh Hvar Hnd Hu d. eexists. split_and!.
  - by apply ApplyUpdateToData_run.
  - done.
  - intros k node Hk. exists (node_update zero d update k). split.
    + by rewrite (set_nodes_lookup _ _ _ _ _ _ k node Hnd Hk).
    + intros i Hi. apply update_fits in Hu. fold d in Hu.
      apply lookup_lt_Some in Hk as Hlt.
      assert (Hfit : ((k + 1) * d <= length update)%nat) by nia.
      destruct (lookup_lt_is_Some_2 update (k * d + i)) as [x Hx]; [nia|].
      exists x. by rewrite node_update_component.
Qed.

Lemma setitem_ok_nat l (i : nat) x l' :
  setitem l (Z.of_nat i) x = Ok l' -> l' = <[i := x]> l.
Proof.
  unfold setitem, index. repeat case_decide; try lia; [|done].
  rewrite Nat2Z.id. by intros [= <-].
Qed.

(** The inner loop of [ApplyUpdateToData] keeps the length of the
    buffer and its entries from the end of the range on. *)
Lemma fill_buffer_keeps update (offset : Z) (s len : nat) (buffer buffer' : list scalar)
    eng eng' :
  for_in (Z.of_nat <$> seq s len) (fun i updated_value =>
    let* x := lift (getitem update (offset + i)) in
    lift (setitem updated_value i x)) buffer eng = (Ok buffer', eng') ->
  eng' = eng
  /\ length buffer' = length buffer
  /\ forall j : nat, (s + len <= j)%nat -> buffer' !! j = buffer !! j.
Proof.
  revert s buffer. induction len as [|len IH]; intros s buffer; simpl.
  - by intros [= <- <-].
  - unfold bind at 1. unfold bind at 1. unfold lift at 1.
    destruct (getitem update (offset + Z.of_nat s)) as [x|e]; [|done].
    unfold lift at 1.
    destruct (setitem buffer (Z.of_nat s) x) as [buffer1|e] eqn:Hset; [|done].
    apply setitem_ok_nat in Hset as ->. intros Hrest.
    destruct (IH _ _ Hrest) as (-> & Hlen & Hkeep).
    split_and!; [done | by rewrite Hlen, length_insert |].
    intros j Hj. rewrite Hkeep by lia. by rewrite list_lookup_insert_ne by lia.
Qed.

#[local] Instance writes_three_components_preorder (d : Z) :
  PreOrder (writes_three_components (scalar:=scalar) zero d).
Proof.
  split.
  - intros eng key. by left.
  - intros e1 e2 e3 H12 H23 key.
    destruct (H23 key) as [Heq|Hnew]; [|by right].
    rewrite Heq. apply H12.
Qed.

(** Whatever the dimension and the update, and however the call ends,
    a value the call has changed has three components, zero from the
    dimension on. *)
Lemma ApplyUpdateToData_writes_three_components (self : t) update eng :
  writes_three_components zero (dimension self)
    eng (snd (ApplyUpdateToData zero self update eng)).
Proof.
  unfold ApplyUpdateToData. unfold bind at 1. unfold model_getitem at 1.
  destruct (model eng !! geometry_name self) as [nodes|]; simpl; [|reflexivity].
  unfold bind at 1. unfold GetVariable at 1.
  case_decide; simpl; [|reflexivity].
  refine (respects_bind (writes_three_components zero (dimension self))
            _ _ _ _ eng); [|intros ?; apply respects_ret, _].
  apply (respects_for_in_invariant _
           (fun acc => three_components zero (dimension self) (fst acc))).
  { simpl. rewrite list_mul_zero. split; [done|].
    intros j _ Hj. by apply lookup_replicate_2. }
  intros node [buffer k] s [Hlen Hpad]. simpl in Hlen, Hpad.
  match goal with
  | |- context [for_in ?xs ?body buffer] =>
      pose proof (read_only_for_in xs body buffer
                    (fun i b => read_only_bind _ _ (read_only_lift _)
                                  (fun x => read_only_lift _)) s) as Hro;
      set (inner := for_in xs body buffer) in *
  end.
  unfold bind, SetSolutionStepValue, ret.
  destruct (inner s) as [[buffer'|e] s1] eqn:Hinner;
    simpl in Hro; subst s1; simpl; [|split; [reflexivity | done]].
  apply fill_buffer_keeps in Hinner as (_ & Hlen' & Hkeep).
  assert (Hgood : three_components zero (dimension self) buffer').
  { split; [lia|]. intros j Hj Hj3. rewrite Hkeep by lia. by apply Hpad. }
  split.
  - intros key. destruct (decide (key = (node, name self, 0%nat))) as [->|Hne].
    + right. exists buffer'. simpl. by rewrite lookup_insert_eq.
    + left. simpl. by rewrite lookup_insert_ne.
  - by intros a' [= <-].
Qed.

(** C6. [ApplyUpdateToData] hands the engine a value of exactly three
    components for each node, whatever the configured dimension [d]:
    every value the call has changed, however it ends, has three
    components, those from [d] to [2] being [0]; when [d <= 3] and the
    update is long enough for the call to go through, every node of the
    mesh ends up with such a value; when [d > 3] and the mesh has a first
    node, the call ends in an [IndexError] on that node and nothing has
    been stored. *)
Theorem ApplyUpdateToData_three_components (self : t) update eng
    (nodes : list NodeId) :
  model eng !! geometry_name self = Some nodes ->
  name self ∈ variables eng ->
  writes_three_components zero (dimension self)
    eng (snd (ApplyUpdateToData zero self update eng))
  /\ (dimension self <= 3 ->
      Z.of_nat (length nodes) * dimension self <= Z.of_nat (length update) ->
      exists eng',
        ApplyUpdateToData zero self update eng = (Ok tt, eng')
        /\ forall node,
             node ∈ nodes ->
             exists v,
               solution_step_data eng' !! (node, name self, 0%nat) = Some v
               /\ length v = 3%nat
               /\ forall j : nat,
                    dimension self <= Z.of_nat j -> (j < 3)%nat ->
                    v !! j = Some zero)
  /\ (3 < dimension self ->
      nodes <> [] ->
      ApplyUpdateToData zero self update eng = (Raise IndexError, eng)).
Proof.
  intros Hmesh Hvar. split_and!.
  - apply ApplyUpdateToData_writes_three_components.
  - intros Hd Hu. eexists. split; [by apply ApplyUpdateToData_run|].
    intros node Hnode. apply update_fits in Hu.
    destruct (set_nodes_written (name self) (Z.to_nat (dimension self))
                update nodes 0 eng node Hnode) as (k & Hk & Hget).
    exists (node_update zero (Z.to_nat (dimension self)) update k).
    split_and!; [done | |].
    + apply node_update_length; [lia | nia].
    + intros j Hj Hj3. apply node_update_padding; [nia | lia].
  - intros Hd Hne. by apply (ApplyUpdateToData_overflow self update eng nodes).
Qed.

(** *** The round trip *)

Lemma SetSolutionStepValue_id node var step value eng :
  solution_step_data eng !! (node, var, step) = Some value ->
  snd (SetSolutionStepValue node var step value eng) = eng.
Proof.
  intros Hget. unfold SetSolutionStepValue. simpl.
  rewrite insert_id by done. by destruct eng.
Qed.

Lemma set_nodes_id var (d : nat) update (nodes : list NodeId) k eng :
  (forall (k' : nat) node,
     nodes !! k' = Some node ->
     solution_step_data eng !! (node, var, 0%nat)
     = Some (node_update zero d update (k + k'))) ->
  set_nodes zero var d update nodes k eng = eng.
Proof.
  revert k. induction nodes as [|node rest IH]; intros k Hsame; [done|].
  cbn [set_nodes]. rewrite SetSolutionStepValue_id.
  - apply IH. intros k' n Hn.
    replace (S k + k')%nat with (k + S k')%nat by lia. by apply Hsame.
  - rewrite <- (Nat.add_0_r k) at 1. by apply Hsame.
Qed.

(** C7. With a configured dimension of exactly 3, over a mesh whose
    nodes hold three-component values of the configured variable at
    solution step 0, [ApplyUpdateToData(GetPythonList(0))] goes through
    and leaves the engine, hence the value on every node, as it was. *)
Theorem round_trip_dimension_3 (self : t) eng (nodes : list NodeId) :
  dimension self = 3 ->
  model eng !! geometry_name self = Some nodes ->
  name self ∈ variables eng ->
  (forall node, node ∈ nodes ->
     exists v,
       solution_step_data eng !! (node, name self, 0%nat) = Some v
       /\ length v = 3%nat) ->
  round_trip zero self eng = (Ok tt, eng).
Proof.
  intros Hd Hmesh Hvar Hval.
  destruct (GetPythonList_run self 0 eng nodes 3) as (data & Hget & Hlen & Hdata);
    [lia | done | done | |].
  { intros node Hnode. destruct (Hval node Hnode) as (v & Hv & Hl).
    exists v. split; [done | lia]. }
  unfold round_trip, bind. rewrite Hget.
  rewrite (ApplyUpdateToData_run self data eng nodes); [|lia | done | done | lia].
  f_equal. rewrite Hd. change (Z.to_nat 3) with 3%nat.
  apply set_nodes_id. intros k node Hk.
  destruct (Hval node) as (v & Hv & Hl); [by eapply list_elem_of_lookup_2|].
  rewrite Hv. f_equal. simpl. apply lookup_lt_Some in Hk as Hlt.
  apply list_eq. intros i. destruct (decide (i < 3)%nat) as [Hi|Hi].
  - rewrite node_update_component by lia.
    symmetry. by apply (Hdata k node v i).
  - rewrite !lookup_ge_None_2; [done | | lia].
    rewrite node_update_length; lia.
Qed.

(** *** Frame *)

(** C8. [GetPythonList] and [GetNumpyArray] leave the engine as it
    was; [ApplyUpdateToData] changes at most the solution-step-0 value
    of the configured variable on the nodes of the configured geometry:
    the model parts, the variables, and every value of another
    variable, another solution step or another node are as before,
    however the call ends. *)
Theorem coupling_interface_data_frame (self : t) (solution_step_index : nat)
    update eng :
  snd (GetPythonList zero self solution_step_index eng) = eng
  /\ snd (GetNumpyArray zero self solution_step_index eng) = eng
  /\ let eng' := snd (ApplyUpdateToData zero self update eng) in
     model eng' = model eng
     /\ variables eng' = variables eng
     /\ forall node var step,
          ~ (node ∈ default [] (model eng !! geometry_name self)
             /\ var = name self /\ step = 0%nat) ->
          solution_step_data eng' !! (node, var, step)
          = solution_step_data eng !! (node, var, step).
Proof.
  split_and!.
  - symmetry. apply read_only_GetPythonList.
  - symmetry. apply read_only_GetNumpyArray.
  - apply ApplyUpdateToData_same_but.
Qed.

End WithScalar.

Import Examples.

Lemma interface_nodes_hold node :
  node ∈ [7%nat; 9%nat] ->
  exists v,
    solution_step_data interface_engine !! (node, "DISPLACEMENT", 0%nat) = Some v
    /\ length v = 3%nat.
Proof.
  intros Hnode. apply elem_of_cons in Hnode as [->|Hnode]; [by eexists|].
  apply elem_of_cons in Hnode as [->|Hnode]; [by eexists|].
  by apply elem_of_nil in Hnode.
Qed.

Lemma GetPythonList_flat_list_witness :
  exists data,
    GetPythonList 0 (displacement 2) 0 interface_engine = (Ok data, interface_engine)
    /\ length data = (2 * 2)%nat
    /\ forall (k : nat) node v (i : nat),
         [7%nat; 9%nat] !! k = Some node ->
         solution_step_data interface_engine !! (node, "DISPLACEMENT", 0%nat) = Some v ->
         (i < 2)%nat ->
         is_Some (v !! i) /\ data !! (k * 2 + i)%nat = v !! i.
Proof.
  apply (GetPythonList_flat_list 0 (displacement 2) 0 interface_engine
           [7%nat; 9%nat] 2).
  - reflexivity.
  - reflexivity.
  - simpl. set_solver.
  - intros node Hnode.
    destruct (interface_nodes_hold node Hnode) as (v & Hv & Hlen).
    exists v. split; [exact Hv | lia].
Defined.

Lemma ApplyUpdateToData_stores_witness :
  exists eng',
    ApplyUpdateToData 0 (displacement 2) [10; 20; 30; 40] interface_engine
    = (Ok tt, eng')
    /\ eng' = set_nodes 0 "DISPLACEMENT" 2 [10; 20; 30; 40] [7%nat; 9%nat] 0
                interface_engine
    /\ forall (k : nat) node,
         [7%nat; 9%nat] !! k = Some node ->
         exists v,
           solution_step_data eng' !! (node, "DISPLACEMENT", 0%nat) = Some v
           /\ forall i : nat,
                (i < 2)%nat ->
                exists x, v !! i = Some x
                          /\ [10; 20; 30; 40] !! (k * 2 + i)%nat = Some x.
Proof.
  apply (ApplyUpdateToData_stores 0 (displacement 2) [10; 20; 30; 40]
           interface_engine [7%nat; 9%nat]).
  - simpl. lia.
  - reflexivity.
  - simpl. set_solver.
  - compute_done.
  - simpl. lia.
Defined.

(** C2 as stated fails for a dimension above three: with dimension 4
    and an update of the required length 8, the call ends in an
    [IndexError] and the first node still holds its old value [1; 2; 3],
    not the first four entries of the update. *)
Lemma ApplyUpdateToData_dimension_4_counterexample :
  let update := [10; 20; 30; 40; 50; 60; 70; 80] in
  let r := ApplyUpdateToData 0 (displacement 4) update interface_engine in
  (Z.of_nat (length [7%nat; 9%nat]) * 4 <= Z.of_nat (length update))
  /\ fst r = Raise IndexError
  /\ solution_step_data (snd r) !! (7%nat, "DISPLACEMENT", 0%nat) = Some [1; 2; 3]
  /\ ~ exists v,
        solution_step_data (snd r) !! (7%nat, "DISPLACEMENT", 0%nat) = Some v
        /\ forall i : nat,
             (i < 4)%nat ->
             exists x, v !! i = Some x /\ update !! (0 * 4 + i)%nat = Some x.
Proof.
  assert (Hrun : ApplyUpdateToData 0 (displacement 4)
                   [10; 20; 30; 40; 50; 60; 70; 80] interface_engine
                 = (Raise IndexError, interface_engine)).
  { apply (ApplyUpdateToData_overflow 0 (displacement 4) _
             interface_engine [7%nat; 9%nat]);
      [reflexivity | simpl; set_solver | simpl; lia | done]. }
  simpl. rewrite Hrun. simpl. split_and!; [lia | done | done |].
  intros (v & Hv & Hcomp).
  assert (v = [1; 2; 3]) as -> by (by injection Hv).
  destruct (Hcomp 0%nat) as (x & Hx & Hu); [lia|].
  simpl in Hx, Hu. congruence.
Qed.

Lemma ApplyUpdateToData_three_components_witness :
  writes_three_components 0 2 interface_engine
    (snd (ApplyUpdateToData 0 (displacement 2) [10; 20; 30] interface_engine))
  /\ (exists eng',
     ApplyUpdateToData 0 (displacement 2) [10; 20; 30; 40] interface_engine
     = (Ok tt, eng')
     /\ forall node,
          node ∈ [7%nat; 9%nat] ->
          exists v,
            solution_step_data eng' !! (node, "DISPLACEMENT", 0%nat) = Some v
            /\ length v = 3%nat
            /\ forall j : nat, 2 <= Z.of_nat j -> (j < 3)%nat -> v !! j = Some 0)
  /\ ApplyUpdateToData 0 (displacement 4) [10; 20; 30; 40] interface_engine
     = (Raise IndexError, interface_engine).
Proof.
  split_and!.
  - apply (ApplyUpdateToData_three_components 0 (displacement 2) [10; 20; 30]
             interface_engine [7%nat; 9%nat]);
      [reflexivity | simpl; set_solver].
  - apply (ApplyUpdateToData_three_components 0 (displacement 2) [10; 20; 30; 40]
             interface_engine [7%nat; 9%nat]);
      [reflexivity | simpl; set_solver | simpl; lia | simpl; lia].
  - apply (ApplyUpdateToData_three_components 0 (displacement 4) [10; 20; 30; 40]
             interface_engine [7%nat; 9%nat]);
      [reflexivity | simpl; set_solver | simpl; lia | discriminate].
Defined.

Lemma round_trip_dimension_3_witness :
  round_trip 0 (displacement 3) interface_engine = (Ok tt, interface_engine).
Proof.
  apply (round_trip_dimension_3 0 (displacement 3) interface_engine [7%nat; 9%nat]).
  - reflexivity.
  - reflexivity.
  - simpl. set_solver.
  - apply interface_nodes_hold.
Defined.

Lemma coupling_interface_data_frame_witness :
  solution_step_data
    (snd (ApplyUpdateToData 0 (displacement 2) [10; 20; 30; 40] interface_engine))
    !! (9%nat, "DISPLACEMENT", 1%nat)
  = solution_step_data interface_engine !! (9%nat, "DISPLACEMENT", 1%nat).
Proof.
  apply (coupling_interface_data_frame 0 (displacement 2) 0 [10; 20; 30; 40]
           interface_engine).
  intros (_ & _ & Hstep). discriminate Hstep.
Defined.

End CouplingInterfaceDataSpec.

Module SmallTestsMPISpec.
Import SmallTestsMPI PyFacts.

Implicit Types (w : World) (env : Env).

Lemma contains_spec (l : list Z) (x : Z) : contains l x = true <-> x ∈ l.
Proof.
  unfold contains. rewrite existsb_exists. split.
  - intros (y & Hy & Heq). apply Z.eqb_eq in Heq as ->. by apply list_elem_of_In.
  - intros Hx. exists x. split; [by apply list_elem_of_In | apply Z.eqb_refl].
Qed.

Lemma calls_called env evs w :
  calls env evs w
  = (snd (called env evs),
     mkWorld (cwd w) (directories w) (log w ++ fst (called env evs))).
Proof.
  unfold calls. revert w. induction evs as [|ev rest IH]; intros w; simpl.
  - rewrite app_nil_r. by destruct w.
  - unfold bind at 1. unfold engine_call at 1.
    destruct (raises env ev) as [e|]; simpl; [done|].
    rewrite IH. simpl. destruct (called env rest) as [evs' r]. simpl.
    by rewrite <- app_assoc.
Qed.

(** [with controlledExecutionScope(scope)], started in a directory
    that exists, around a body that leaves that directory in place. *)
Lemma within_spec {A} (scope : string) (body : M World A) w :
  cwd w ∈ directories w ->
  scope ∈ directories w ->
  let w1 := mkWorld scope (directories w) (log w) in
  cwd w ∈ directories (snd (body w1)) ->
  within scope body w
  = (fst (body w1),
     mkWorld (cwd w) (directories (snd (body w1))) (log (snd (body w1)))).
Proof.
  intros Hcwd Hscope w1 Hback.
  unfold within, bind, controlledExecutionScope.__init__, bind, getcwd, ret.
  rewrite decide_True by done.
  unfold with_, controlledExecutionScope.__enter__,
    controlledExecutionScope.__exit__, chdir, bind, ret. simpl.
  rewrite decide_True by done. fold w1.
  destruct (body w1) as [[a|e] w2]; simpl in *; by rewrite decide_True.
Qed.

Lemma within_ext {A} (scope : string) (body body' : M World A) w :
  (forall w', body w' = body' w') -> within scope body w = within scope body' w.
Proof.
  intros Hext. unfold within, bind, with_.
  destruct (controlledExecutionScope.__init__ scope w) as [[mgr|e] w0]; [|done].
  destruct (controlledExecutionScope.__enter__ mgr w0) as [[[]|e] w1]; [|done].
  by rewrite Hext.
Qed.

Import NearestNeighborMapperTestFactory.

Lemma contains_2_4_8 (n : Z) :
  contains [2; 4; 8] n = bool_decide (n = 2 \/ n = 4 \/ n = 8).
Proof.
  unfold contains. simpl.
  destruct (Z.eqb_spec n 2), (Z.eqb_spec n 4), (Z.eqb_spec n 8); simpl;
    symmetry; (apply bool_decide_eq_true_2 || apply bool_decide_eq_false_2); lia.
Qed.

Lemma contains_3_5_9 (n : Z) :
  contains [3; 5; 9] n = bool_decide (n = 3 \/ n = 5 \/ n = 9).
Proof.
  unfold contains. simpl.
  destruct (Z.eqb_spec n 3), (Z.eqb_spec n 5), (Z.eqb_spec n 9); simpl;
    symmetry; (apply bool_decide_eq_true_2 || apply bool_decide_eq_false_2); lia.
Qed.

(** The body of [test_execution] is the sequence of its planned calls,
    cut short by the first that raises. *)
Lemma test_execution_calls env (self : t) w :
  test_execution env self w
  = within (file_dir env) (calls env (planned_calls self)) w.
Proof.
  unfold test_execution. apply within_ext. clear w. intros w.
  unfold planned_calls, calls.
  destruct (decide (num_processors self = 1)) as [H1|H1].
  - unfold serialTests. cbn [for_in].
    unfold bind, engine_call, ret; simpl.
    repeat (destruct (raises env _); [reflexivity|]). reflexivity.
  - unfold parallelTests. rewrite contains_2_4_8, contains_3_5_9.
    destruct (decide (num_processors self = 2 \/ _)) as [H2|H2];
      destruct (decide (num_processors self = 3 \/ _)) as [H3|H3];
      rewrite ?(bool_decide_eq_true_2 _ H2), ?(bool_decide_eq_false_2 _ H2),
              ?(bool_decide_eq_true_2 _ H3), ?(bool_decide_eq_false_2 _ H3);
      cbn [for_in app];
      unfold bind, engine_call, ret; simpl;
      repeat (destruct (raises env _); [reflexivity|]); reflexivity.
Qed.

Lemma setUp_spec env (mpi : option Z) w :
  file_dir env ∈ directories w ->
  cwd w ∈ directories w ->
  let n := default 1 mpi in
  let test := mkTest (test_class n) true in
  setUp env mpi w
  = (match raises env (Construct test) with
     | Some e => Raise e
     | None => Ok {| num_processors := n; test := test |}
     end,
     mkWorld (cwd w) (directories w) (log w ++ [Construct test])).
Proof.
  intros Hdir Hcwd n test. unfold setUp. unfold bind at 1.
  assert (Hprobe : try_except
            (match mpi with
             | Some size => ret size
             | None => raise (NameError "mpi")
             end) (ret 1) w = (Ok n, w)) by (by destruct mpi).
  rewrite Hprobe. rewrite within_spec; [|done|done|].
  - subst test. unfold test_class.
    destruct (decide (n = 1)); unfold bind, engine_call, ret; simpl;
      by destruct (raises env _).
  - destruct (decide (n = 1)); unfold bind, engine_call, ret; simpl;
      by destruct (raises env _).
Qed.

Lemma test_execution_spec env (self : t) w :
  file_dir env ∈ directories w ->
  cwd w ∈ directories w ->
  test_execution env self w
  = (snd (called env (planned_calls self)),
     mkWorld (cwd w) (directories w)
       (log w ++ fst (called env (planned_calls self)))).
Proof.
  intros Hdir Hcwd. rewrite test_execution_calls.
  rewrite within_spec; [|done|done|]; by rewrite calls_called.
Qed.

Lemma called_all env evs :
  (forall ev, raises env ev = None) -> called env evs = (evs, Ok tt).
Proof.
  intros Hnone. induction evs as [|ev rest IH]; simpl; [done|].
  by rewrite Hnone, IH.
Qed.

(** The manager [__init__] returns, when it returns one, records the
    working directory, which exists. *)
Lemma controlledExecutionScope_init (scope : string) (w0 : World)
    (mgr : controlledExecutionScope.t) :
  fst (controlledExecutionScope.__init__ scope w0) = Ok mgr ->
  mgr = controlledExecutionScope.mk (cwd w0) scope /\ cwd w0 ∈ directories w0.
Proof.
  unfold controlledExecutionScope.__init__, bind, getcwd, ret.
  destruct (decide (cwd w0 ∈ directories w0)); simpl; [|done].
  by intros [= <-].
Qed.


(** C5. [NearestNeighborMapperTestFactory] dispatches on the MPI process
    count [mpi.size]: with a count of 1, [setUp] constructs the serial
    [KratosExecuteNearestNeighborMapperTest] and [test_execution] runs
    exactly the six serial tests; with a count greater than 1, [setUp]
    constructs [KratosExecuteNearestNeighborMapperTestMPI] and
    [test_execution] runs the four constant-field tests, then
    [TestMapNonConstantScalarValues(5.0)] exactly when the count is 2, 4
    or 8, then [TestInverseMapNonConstantScalarValues(6.0)] exactly when
    it is 3, 5 or 9.  (No call into the mapping application raises, and
    the script's directory and the starting directory exist.) *)
Theorem NearestNeighborMapperTestFactory_dispatch env (count : Z) w :
  (forall ev, raises env ev = None) ->
  file_dir env ∈ directories w ->
  cwd w ∈ directories w ->
  exists self w1 w2,
    setUp env (Some count) w = (Ok self, w1)
    /\ test_execution env self w1 = (Ok tt, w2)
    /\ log w1 = (log w ++ [Construct (test self)])%list
    /\ (count = 1 ->
        test self = mkTest KratosExecuteNearestNeighborMapperTest true
        /\ log w2 = (log w1 ++
             [ Call (test self) TestMapConstantScalarValues 1;
               Call (test self) TestInverseMapConstantScalarValues 2;
               Call (test self) TestMapConstantVectorValues 3;
               Call (test self) TestInverseMapConstantVectorValues 4;
               Call (test self) TestMapNonConstantScalarValues 5;
               Call (test self) TestInverseMapNonConstantScalarValues 6 ])%list)
    /\ (count > 1 ->
        test self = mkTest KratosExecuteNearestNeighborMapperTestMPI true
        /\ log w2 = (log w1 ++
             [ Call (test self) TestMapConstantScalarValues 1;
               Call (test self) TestInverseMapConstantScalarValues 2;
               Call (test self) TestMapConstantVectorValues 3;
               Call (test self) TestInverseMapConstantVectorValues 4 ]
             ++ (if decide (count = 2 \/ count = 4 \/ count = 8)
                 then [Call (test self) TestMapNonConstantScalarValues 5]
                 else [])
             ++ (if decide (count = 3 \/ count = 5 \/ count = 9)
                 then [Call (test self) TestInverseMapNonConstantScalarValues 6]
                 else []))%list).
Proof.
  intros Hnone Hdir Hcwd.
  pose proof (setUp_spec env (Some count) w Hdir Hcwd) as HsetUp.
  simpl in HsetUp. rewrite Hnone in HsetUp.
  eexists _, _, _. split; [exact HsetUp|].
  rewrite test_execution_spec by done.
  rewrite called_all by done. simpl.
  split; [done|]. split; [done|].
  unfold planned_calls, test_class. simpl. split.
  - intros ->. by rewrite !decide_True by done.
  - intros Hgt. by rewrite !decide_False by lia.
Qed.

Lemma called_first env (before : list event) ev rest e :
  (forall ev', ev' ∈ before -> raises env ev' = None) ->
  raises env ev = Some e ->
  called env (before ++ ev :: rest) = ((before ++ [ev])%list, Raise e).
Proof.
  intros Hbefore Hev. induction before as [|ev0 before IH]; simpl.
  - by rewrite Hev.
  - rewrite Hbefore by set_solver. rewrite IH; [done|].
    intros ev' Hev'. apply Hbefore. set_solver.
Qed.

(** The import guard lets no exception through. *)
Lemma import_guard_spec env w :
  import_guard env w
  = (Ok (match import_mpi env with Ok size => Some size | Raise _ => None end), w).
Proof.
  unfold import_guard, try_except, bind, lift, ret.
  by destruct (import_mpi env).
Qed.

Import Examples.

Lemma start_directories :
  tests_dir ∈ directories start /\ cwd start ∈ directories start
  /\ "/tmp" ∈ directories start.
Proof. unfold start. simpl. set_solver. Qed.

(** The manager constructed at [start]. *)
Lemma start_manager :
  fst (controlledExecutionScope.__init__ tests_dir start)
  = Ok (controlledExecutionScope.mk "/home/user" tests_dir).
Proof.
  pose proof start_directories as (_ & Hcwd & _).
  unfold controlledExecutionScope.__init__, bind, getcwd, ret.
  by rewrite decide_True by exact Hcwd.
Qed.



Lemma NearestNeighborMapperTestFactory_dispatch_witness :
  exists self w1 w2,
    setUp (mpi_run 4) (Some 4) start = (Ok self, w1)
    /\ test_execution (mpi_run 4) self w1 = (Ok tt, w2)
    /\ test self = mkTest KratosExecuteNearestNeighborMapperTestMPI true
    /\ log w2 =
       [ Construct (test self);
         Call (test self) TestMapConstantScalarValues 1;
         Call (test self) TestInverseMapConstantScalarValues 2;
         Call (test self) TestMapConstantVectorValues 3;
         Call (test self) TestInverseMapConstantVectorValues 4;
         Call (test self) TestMapNonConstantScalarValues 5 ].
Proof.
  pose proof start_directories as (Hdir & Hcwd & _).
  destruct (NearestNeighborMapperTestFactory_dispatch (mpi_run 4) 4 start
              (fun _ => eq_refl) Hdir Hcwd)
    as (self & w1 & w2 & HsetUp & Hrun & Hlog1 & _ & Hmpi).
  destruct Hmpi as [Htest Hlog2]; [lia|].
  exists self, w1, w2. split_and!; [done..|].
  rewrite Hlog2, Hlog1. reflexivity.
Defined.


End SmallTestsMPISpec.

Module FluidFractionTestAnalysisSpec.
Import FluidFractionTestAnalysis.

(** C3, on the code. Whatever [ProjectParameters.json] holds, the
    [__main__] block constructs the analysis with the parsed parameters
    bound to [iteration]: they reach [ErrorProjectionPostProcessTool],
    while [project_parameters] is the default [Parameters("{}")], which is
    also what [_CreateSolver] passes on. *)
Theorem main_project_parameters_are_the_default (parameter_file : string) :
  exists test,
    main parameter_file = Ok test
    /\ projector_post_process test = Parameters parameter_file
    /\ project_parameters test = Parameters "{}"
    /\ snd (_CreateSolver test) = Parameters "{}".
Proof. eexists. by split_and!. Qed.

End FluidFractionTestAnalysisSpec.

Module MainFsiAitkenForTestingSpec.
Import MainFsiAitkenForTesting.

(** C9, on the code. The file does not compile, because [2d_fsi] is
    not an identifier, so nothing of it runs; [TestAnalytics] has no
    method the unittest loader would collect; and [Finalize] looks up a
    class name the module does not define. *)
Theorem test_module_does_not_run :
  run_as_main = Raise (SyntaxError "2d_fsi")
  /\ test_methods TestAnalytics = []
  /\ call MainCouplingPfemFemDemAitkenForTestingSolution "Finalize"
     = Raise (NameError "MainCouplingFemDemForTestingSolution").
Proof. split_and!; reflexivity. Qed.

End MainFsiAitkenForTestingSpec.

Module CallsFacts.
Import PyFacts.



Section Passes.

Context {S : Type} (ended : S -> ending).









End Passes.



End CallsFacts.

Module CouplingInterfaceDataOnEngineSpec.
Import CouplingInterfaceData CouplingInterfaceDataOnEngine CallsFacts.

(** Against the engine of [CouplingInterfaceData.Engine] the methods
    are those of [CouplingInterfaceData]. *)
Lemma on_storage {scalar : Type} (zero : scalar) (self : t) (step : nat)
    (update : list scalar) :
  GetPythonList zero storage self step
  = CouplingInterfaceData.GetPythonList zero self step
  /\ GetNumpyArray zero storage self step
     = CouplingInterfaceData.GetNumpyArray zero self step
  /\ ApplyUpdateToData zero storage self update
     = CouplingInterfaceData.ApplyUpdateToData zero self update.
Proof. by split_and!. Qed.

Section WithScalar.

Context {scalar : Type} (zero : scalar).
Implicit Types (eng : AnyEngine scalar) (self : t).









End WithScalar.

End CouplingInterfaceDataOnEngineSpec.

Module SmallTestsMPICallsSpec.
Import SmallTestsMPI SmallTestsMPICalls CallsFacts.
Import NearestNeighborMapperTestFactory.

Implicit Types (w : World) (env : Env).









End SmallTestsMPICallsSpec.

Module AdaptativeRemeshingImplicitMechanicalSolverCallsSpec.
Import AdaptativeRemeshingImplicitMechanicalSolver.
Import AdaptativeRemeshingImplicitMechanicalSolverCalls CallsFacts.

Implicit Types (env : Env) (self : t).




End AdaptativeRemeshingImplicitMechanicalSolverCallsSpec.

Module EngineCallsSpec.
Import EngineCalls CallsFacts.

Implicit Types (eng : Engine) (v : value).









Import FluidFractionTestAnalysis.











End EngineCallsSpec.

Module ErrorHandling.
Import CallsFacts.


Import Examples CallsExamples.



End ErrorHandling.

(** ** More on coupling_interface_data.py *)

Module CouplingInterfaceDataMore.
Import CouplingInterfaceData PyMore PyFacts CouplingInterfaceDataSpec.
Section WithScalar.

Context {scalar : Type} (zero : scalar).
Implicit Types (l data update value : list scalar) (eng : Engine (scalar:=scalar)).

Lemma for_in_app {S A X} (xs ys : list X) (body : X -> A -> M S A) acc s :
  for_in (xs ++ ys) body acc s = bind (for_in xs body acc) (for_in ys body) s.
Proof.
  revert acc s. induction xs as [|x xs IH]; intros acc s; simpl; [done|].
  unfold bind. destruct (body x acc s) as [[a|e] s1]; [|done].
  rewrite IH. reflexivity.
Qed.

Lemma engine_eq eng eng' :
  model eng' = model eng ->
  variables eng' = variables eng ->
  (forall key, solution_step_data eng' !! key = solution_step_data eng !! key) ->
  eng' = eng.
Proof.
  destruct eng, eng'. simpl. intros -> -> Hdata. f_equal. by apply map_eq.
Qed.

(** X1. Writing an update and reading it back: for a dimension between
    0 and 3 and an update of at least [n*d] entries, over a mesh that
    holds each node once, [GetPythonList(0)] after [ApplyUpdateToData]
    returns the first [n*d] entries of the update. *)
Theorem GetPythonList_after_ApplyUpdateToData (self : t) update eng
    (nodes : list NodeId) (d : nat) :
  dimension self = Z.of_nat d ->
  (d <= 3)%nat ->
  model eng !! geometry_name self = Some nodes ->
  name self ∈ variables eng ->
  NoDup nodes ->
  (length nodes * d <= length update)%nat ->
  exists eng',
    ApplyUpdateToData zero self update eng = (Ok tt, eng')
    /\ GetPythonList zero self 0 eng'
       = (Ok (take (length nodes * d) update), eng').
Proof.
  intros Hd Hd3 Hmesh Hvar Hnd Hlen.
  assert (Hdn : Z.to_nat (dimension self) = d) by lia.
  eexists. split; [apply (ApplyUpdateToData_run zero self update eng nodes); [lia|done|done|nia]|].
  rewrite Hdn. set (eng' := set_nodes zero (name self) d update nodes 0 eng).
  destruct (set_nodes_same_but zero (name self) d update nodes 0 eng)
    as (Hmodel & Hvars & _). fold eng' in Hmodel, Hvars.
  assert (Hstored : forall (k : nat) node, nodes !! k = Some node ->
            solution_step_data eng' !! (node, name self, 0%nat)
            = Some (node_update zero d update k)).
  { intros k node Hk.
    exact (set_nodes_lookup zero (name self) d update nodes 0 eng k node Hnd Hk). }
  destruct (GetPythonList_run zero self 0 eng' nodes d)
    as (data & Hrun & Hdlen & Hdata); [done | by rewrite Hmodel | by rewrite Hvars | |].
  { intros node Hnode. apply list_elem_of_lookup in Hnode as [k Hk].
    exists (node_update zero d update k). split; [by apply Hstored|].
    apply lookup_lt_Some in Hk. rewrite node_update_length; [lia | done | nia]. }
  rewrite Hrun. do 2 f_equal. apply list_eq. intros j.
  destruct (decide (j < length nodes * d)%nat) as [Hj|Hj].
  - assert (Hpos : (0 < d)%nat) by nia.
    pose proof (Nat.div_mod_eq j d) as Hdiv.
    pose proof (Nat.mod_upper_bound j d ltac:(lia)) as Hmod.
    assert (Hk : (j `div` d < length nodes)%nat).
    { apply Nat.Div0.div_lt_upper_bound. lia. }
    destruct (lookup_lt_is_Some_2 nodes (j `div` d)) as [node Hnode]; [done|].
    destruct (Hdata (j `div` d)%nat node _ (j `mod` d)%nat Hnode
                (Hstored _ _ Hnode) Hmod) as [_ Hentry].
    replace (j `div` d * d + j `mod` d)%nat with j in Hentry by lia.
    rewrite Hentry, lookup_take_lt by done.
    rewrite node_update_component by (done || nia). f_equal. lia.
  - rewrite !lookup_ge_None_2; [done | | lia].
    rewrite length_take. lia.
Qed.

(** The inner loop of [ApplyUpdateToData] when the update ends inside
    the node's slice: an [IndexError], whatever the buffer. *)
Lemma fill_buffer_short update (offset : Z) (base s len : nat)
    (buffer : list scalar) eng :
  offset = Z.of_nat base ->
  (base + s <= length update < base + s + len)%nat ->
  for_in (Z.of_nat <$> seq s len) (fun i updated_value =>
    let* x := lift (getitem update (offset + i)) in
    lift (setitem updated_value i x)) buffer eng = (Raise IndexError, eng).
Proof.
  intros ->. revert s buffer. induction len as [|len IH]; intros s buffer Hs; [lia|].
  simpl. unfold bind at 1. unfold bind at 1. unfold lift at 1.
  replace (Z.of_nat base + Z.of_nat s) with (Z.of_nat (base + s)) by lia.
  destruct (decide (base + s = length update)%nat) as [Heq|Hne].
  - by rewrite getitem_ge by lia.
  - destruct (lookup_lt_is_Some_2 update (base + s)) as [x Hx]; [lia|].
    rewrite (getitem_nat _ _ _ Hx). unfold lift at 1.
    destruct (setitem buffer (Z.of_nat s) x) as [buffer1|e] eqn:Hset.
    + apply IH. lia.
    + by rewrite (setitem_error _ _ _ _ Hset).
Qed.

(** X2. An update that is too short: for a dimension between 1 and 3
    and an update of fewer than [n*d] entries, [ApplyUpdateToData] ends in
    an [IndexError], and the nodes whose slice was complete, the first
    [len(update) // d] of them, have been written all the same. *)
Theorem ApplyUpdateToData_short_update (self : t) update eng
    (nodes : list NodeId) (d : nat) :
  dimension self = Z.of_nat d ->
  (1 <= d <= 3)%nat ->
  model eng !! geometry_name self = Some nodes ->
  name self ∈ variables eng ->
  (length update < length nodes * d)%nat ->
  ApplyUpdateToData zero self update eng
  = (Raise IndexError,
     set_nodes zero (name self) d update
       (take (length update `div` d) nodes) 0 eng).
Proof.
  intros Hd Hd3 Hmesh Hvar Hshort.
  assert (Hdn : Z.to_nat (dimension self) = d) by lia.
  set (m := (length update `div` d)%nat).
  pose proof (Nat.div_mod_eq (length update) d) as Hdiv.
  pose proof (Nat.mod_upper_bound (length update) d ltac:(lia)) as Hmod.
  fold m in Hdiv.
  assert (Hm : (m < length nodes)%nat) by nia.
  destruct (lookup_lt_is_Some_2 nodes m Hm) as [node Hnode].
  assert (Hsplit : nodes = (take m nodes ++ node :: drop (S m) nodes)%list).
  { by rewrite <- (take_drop_middle nodes m node Hnode) at 1. }
  assert (Hpre : length (take m nodes) = m) by (rewrite length_take; lia).
  destruct (apply_nodes zero self (name self) update eng (take m nodes) 0
              (list_mul [zero] 3)) as (buffer' & Hrun).
  { lia. }
  { done. }
  { intros j Hj. rewrite list_mul_zero. apply lookup_replicate_2. lia. }
  { rewrite Hpre, Hdn. nia. }
  rewrite Hdn, Hpre in Hrun. change (Z.of_nat 0) with 0 in Hrun.
  unfold ApplyUpdateToData. unfold bind at 1. unfold model_getitem at 1.
  rewrite Hmesh. unfold bind at 1. unfold GetVariable at 1.
  rewrite decide_True by done. unfold bind at 1.
  rewrite Hsplit at 1. rewrite for_in_app. unfold bind at 1. rewrite Hrun.
  simpl for_in. unfold bind at 1. unfold bind at 1. unfold range.
  rewrite Hdn.
  rewrite (fill_buffer_short update _ (m * d) 0 d); [done | lia | lia].
Qed.

(** The outer loop of [GetPythonList] when the dimension is not
    positive: it reads every node's value and copies nothing. *)
Lemma gather_nothing (self : t) (step : nat) (var : string) eng
    (rest : list NodeId) (k : Z) data :
  dimension self <= 0 ->
  (forall node, node ∈ rest ->
     is_Some (solution_step_data eng !! (node, var, step))) ->
  for_in rest (fun node '(data, node_index) =>
    let* data_value := GetSolutionStepValue node var step in
    let* data :=
      for_in (range (dimension self)) (fun i data =>
        let* x := lift (getitem data_value i) in
        lift (setitem data (node_index * dimension self + i) x)) data in
    ret (data, node_index + 1)) (data, k) eng
  = (Ok (data, k + Z.of_nat (length rest)), eng).
Proof.
  intros Hd. revert k. induction rest as [|node rest IH]; intros k Hval.
  - simpl. by rewrite Z.add_0_r.
  - destruct (Hval node) as [v Hv]; [set_solver|].
    match goal with
    | |- for_in _ ?body _ _ = _ =>
        assert (Hbody : body node (data, k) eng = (Ok (data, k + 1), eng));
        [|change (for_in (node :: rest) body (data, k) eng)
            with (bind (body node (data, k)) (for_in rest body) eng);
          unfold bind at 1; rewrite Hbody]
    end.
    + unfold bind at 1. unfold GetSolutionStepValue at 1. rewrite Hv.
      unfold bind at 1. unfold range.
      by replace (Z.to_nat (dimension self)) with 0%nat by lia.
    + rewrite IH by (intros n Hn; apply Hval; set_solver).
      do 3 f_equal. simpl length. lia.
Qed.

(** X3. A dimension that is not positive, such as the default -1:
    [GetPythonList] returns the empty list, and [ApplyUpdateToData]
    returns whatever the update, empty or not, and leaves every node of
    the mesh with the value [[0, 0, 0]]. *)
Theorem nonpositive_dimension (self : t) (solution_step_index : nat) update eng
    (nodes : list NodeId) :
  dimension self <= 0 ->
  model eng !! geometry_name self = Some nodes ->
  name self ∈ variables eng ->
  ((forall node, node ∈ nodes ->
      is_Some (solution_step_data eng
                 !! (node, name self, solution_step_index))) ->
   GetPythonList zero self solution_step_index eng = (Ok [], eng))
  /\ exists eng',
       ApplyUpdateToData zero self update eng = (Ok tt, eng')
       /\ forall node,
            node ∈ nodes ->
            solution_step_data eng' !! (node, name self, 0%nat)
            = Some [zero; zero; zero].
Proof.
  intros Hd Hmesh Hvar. split.
  - intros Hval. unfold GetPythonList. unfold bind at 1.
    unfold model_getitem at 1. rewrite Hmesh. unfold bind at 1.
    unfold GetVariable at 1. rewrite decide_True by done. unfold bind at 1.
    rewrite gather_nothing by done. unfold ret. do 2 f_equal.
    unfold list_mul at 1. by replace (Z.to_nat (dimension self)) with 0%nat by lia.
  - eexists. split.
    + apply (ApplyUpdateToData_run zero self update eng nodes); [lia|done|done|nia].
    + intros node Hnode.
      destruct (set_nodes_written zero (name self) (Z.to_nat (dimension self))
                  update nodes 0 eng node Hnode) as (k & _ & ->).
      by replace (Z.to_nat (dimension self)) with 0%nat by lia.
Qed.

(** X4. The last update wins: for a dimension of at most 3, two
    updates that are long enough and a mesh that holds each node once,
    applying the second update after the first leaves the engine that
    applying the second alone leaves. *)
Theorem ApplyUpdateToData_overwrites (self : t) update1 update2 eng
    (nodes : list NodeId) :
  dimension self <= 3 ->
  model eng !! geometry_name self = Some nodes ->
  name self ∈ variables eng ->
  NoDup nodes ->
  Z.of_nat (length nodes) * dimension self <= Z.of_nat (length update1) ->
  Z.of_nat (length nodes) * dimension self <= Z.of_nat (length update2) ->
  exists eng1 eng2,
    ApplyUpdateToData zero self update1 eng = (Ok tt, eng1)
    /\ ApplyUpdateToData zero self update2 eng = (Ok tt, eng2)
    /\ ApplyUpdateToData zero self update2 eng1 = (Ok tt, eng2).
Proof.
  intros Hd Hmesh Hvar Hnd Hu1 Hu2.
  set (d := Z.to_nat (dimension self)).
  exists (set_nodes zero (name self) d update1 nodes 0 eng),
         (set_nodes zero (name self) d update2 nodes 0 eng).
  destruct (set_nodes_same_but zero (name self) d update1 nodes 0 eng)
    as (Hm1 & Hv1 & Hd1).
  split_and!; [by apply ApplyUpdateToData_run.. |].
  rewrite (ApplyUpdateToData_run zero self update2 _ nodes);
    [|done | by rewrite Hm1 | by rewrite Hv1 | done].
  f_equal. fold d.
  destruct (set_nodes_same_but zero (name self) d update2 nodes 0 eng)
    as (Hm2 & Hv2 & Hd2).
  destruct (set_nodes_same_but zero (name self) d update2 nodes 0
              (set_nodes zero (name self) d update1 nodes 0 eng))
    as (Hm3 & Hv3 & Hd3).
  apply engine_eq.
  - by rewrite Hm3, Hm1, Hm2.
  - by rewrite Hv3, Hv1, Hv2.
  - intros [[node var] step].
    destruct (decide (node ∈ nodes /\ var = name self /\ step = 0%nat))
      as [(Hin & -> & ->)|Hne].
    + apply list_elem_of_lookup in Hin as [k Hk].
      by rewrite !(set_nodes_lookup zero _ _ _ _ _ _ k node Hnd Hk).
    + by rewrite Hd3, Hd1, Hd2.
Qed.

Lemma same_on_ret {S A} (s s' : S) (a : A) : same_on s s' (ret a).
Proof. by split_and!. Qed.

Lemma same_on_lift {S A} (s s' : S) (r : result A) : same_on s s' (lift r).
Proof. by split_and!. Qed.

Lemma same_on_bind {S A B} (s s' : S) (m : M S A) (k : A -> M S B) :
  same_on s s' m ->
  (forall a, fst (m s) = Ok a -> same_on s s' (k a)) ->
  same_on s s' (bind m k).
Proof.
  intros (Hfst & Hs & Hs') Hk. unfold same_on, bind.
  destruct (m s) as [r1 s1], (m s') as [r2 s2]. simpl in *. subst.
  destruct r1 as [a|e]; [by apply Hk | done].
Qed.

Lemma same_on_for_in {S A X} (s s' : S) (xs : list X) (body : X -> A -> M S A) acc :
  (forall x a, same_on s s' (body x a)) -> same_on s s' (for_in xs body acc).
Proof.
  intros Hbody. revert acc. induction xs as [|x xs IH]; intros acc; simpl.
  - apply same_on_ret.
  - apply same_on_bind; [apply Hbody | intros a _; apply IH].
Qed.

(** [GetPythonList] reads the mesh of its geometry, the registration of
    its variable and the values of that variable at the requested step,
    and nothing else: on two engines that agree there it returns the
    same. *)
Lemma GetPythonList_reads (self : t) (step : nat) eng eng' :
  model eng' !! geometry_name self = model eng !! geometry_name self ->
  (name self ∈ variables eng' <-> name self ∈ variables eng) ->
  (forall node,
     solution_step_data eng' !! (node, name self, step)
     = solution_step_data eng !! (node, name self, step)) ->
  same_on eng eng' (GetPythonList zero self step).
Proof.
  intros Hmodel Hvars Hdata. unfold GetPythonList.
  apply same_on_bind.
  { unfold same_on, model_getitem. rewrite Hmodel.
    by destruct (model eng !! geometry_name self). }
  intros nodes _. apply same_on_bind.
  { unfold same_on, GetVariable.
    destruct (decide (name self ∈ variables eng)) as [Hin|Hnin].
    - by rewrite decide_True by (by rewrite Hvars).
    - by rewrite decide_False by (by rewrite Hvars). }
  intros var Hvar.
  assert (var = name self) as ->.
  { unfold GetVariable in Hvar. case_decide; simpl in Hvar; congruence. }
  apply same_on_bind; [|intros [data k] _; apply same_on_ret].
  apply same_on_for_in. intros node [data k].
  apply same_on_bind.
  { unfold same_on, GetSolutionStepValue. rewrite Hdata.
    by destruct (solution_step_data eng !! _). }
  intros v _. apply same_on_bind; [|intros ? _; apply same_on_ret].
  apply same_on_for_in. intros i a.
  apply same_on_bind; [apply same_on_lift | intros x _; apply same_on_lift].
Qed.

(** X5. [ApplyUpdateToData] does not disturb the data of another
    variable: whatever the update and however the call ends,
    [GetPythonList] for a [CouplingInterfaceData] of another variable
    returns afterwards what it returned before. *)
Theorem ApplyUpdateToData_keeps_other_variables (self other : t)
    (solution_step_index : nat) update eng :
  name other <> name self ->
  fst (GetPythonList zero other solution_step_index
         (snd (ApplyUpdateToData zero self update eng)))
  = fst (GetPythonList zero other solution_step_index eng).
Proof.
  intros Hother.
  destruct (ApplyUpdateToData_same_but zero self update eng) as (Hm & Hv & Hd).
  apply GetPythonList_reads.
  - by rewrite Hm.
  - by rewrite Hv.
  - intros node. apply Hd. intros (_ & ? & _). congruence.
Qed.

End WithScalar.

Import Examples.

Lemma interface_engine_ready :
  model interface_engine !! "interface" = Some [7%nat; 9%nat]
  /\ "DISPLACEMENT" ∈ variables interface_engine
  /\ NoDup [7%nat; 9%nat].
Proof. split_and!; [done | simpl; set_solver | compute_done]. Qed.

Lemma GetPythonList_after_ApplyUpdateToData_witness :
  exists eng',
    ApplyUpdateToData 0 (displacement 2) [10; 20; 30; 40] interface_engine
    = (Ok tt, eng')
    /\ GetPythonList 0 (displacement 2) 0 eng' = (Ok [10; 20; 30; 40], eng').
Proof.
  destruct interface_engine_ready as (Hmesh & Hvar & Hnd).
  apply (GetPythonList_after_ApplyUpdateToData 0 (displacement 2)
           [10; 20; 30; 40] interface_engine [7%nat; 9%nat] 2);
    [reflexivity | lia | exact Hmesh | exact Hvar | exact Hnd | simpl; lia].
Defined.

Lemma ApplyUpdateToData_short_update_witness :
  ApplyUpdateToData 0 (displacement 2) [10; 20; 30] interface_engine
  = (Raise IndexError,
     set_nodes 0 "DISPLACEMENT" 2 [10; 20; 30] [7%nat] 0 interface_engine).
Proof.
  destruct interface_engine_ready as (Hmesh & Hvar & _).
  apply (ApplyUpdateToData_short_update 0 (displacement 2) [10; 20; 30]
           interface_engine [7%nat; 9%nat] 2);
    [reflexivity | lia | exact Hmesh | exact Hvar | simpl; lia].
Defined.

Lemma nonpositive_dimension_witness :
  let self := __init__ (mkConfig (Some "DISPLACEMENT") None None
                          (Some "interface")) in
  dimension self = -1
  /\ GetPythonList 0 self 0 interface_engine = (Ok [], interface_engine)
  /\ exists eng',
       ApplyUpdateToData 0 self [] interface_engine = (Ok tt, eng')
       /\ forall node,
            node ∈ [7%nat; 9%nat] ->
            solution_step_data eng' !! (node, "DISPLACEMENT", 0%nat)
            = Some [0; 0; 0].
Proof.
  destruct interface_engine_ready as (Hmesh & Hvar & _).
  destruct (nonpositive_dimension 0
              (__init__ (mkConfig (Some "DISPLACEMENT") None None
                           (Some "interface")))
              0 [] interface_engine [7%nat; 9%nat])
    as [Hget Happly]; [simpl; lia | exact Hmesh | exact Hvar |].
  split; [reflexivity|]. split; [|exact Happly].
  apply Hget. intros node Hnode.
  destruct (interface_nodes_hold node Hnode) as (v & Hv & _).
  exists v. exact Hv.
Defined.

Lemma ApplyUpdateToData_overwrites_witness :
  exists eng1 eng2,
    ApplyUpdateToData 0 (displacement 2) [10; 20; 30; 40] interface_engine
    = (Ok tt, eng1)
    /\ ApplyUpdateToData 0 (displacement 2) [50; 60; 70; 80] interface_engine
       = (Ok tt, eng2)
    /\ ApplyUpdateToData 0 (displacement 2) [50; 60; 70; 80] eng1 = (Ok tt, eng2).
Proof.
  destruct interface_engine_ready as (Hmesh & Hvar & Hnd).
  apply (ApplyUpdateToData_overwrites 0 (displacement 2) [10; 20; 30; 40]
           [50; 60; 70; 80] interface_engine [7%nat; 9%nat]);
    [simpl; lia | exact Hmesh | exact Hvar | exact Hnd | simpl; lia | simpl; lia].
Defined.

Lemma ApplyUpdateToData_keeps_other_variables_witness :
  ApplyUpdateToData 0 (displacement 2) [10; 20; 30; 40]
    MoreExamples.two_fields_engine
  = (Ok tt, MoreExamples.two_fields_engine_updated)
  /\ fst (GetPythonList 0 MoreExamples.velocity 0
            MoreExamples.two_fields_engine_updated)
     = Ok [11; 12; 13; 14; 15; 16].
Proof.
  assert (Hrun : ApplyUpdateToData 0 (displacement 2) [10; 20; 30; 40]
                   MoreExamples.two_fields_engine
                 = (Ok tt, MoreExamples.two_fields_engine_updated))
    by (vm_compute; reflexivity).
  split; [exact Hrun|].
  change MoreExamples.two_fields_engine_updated
    with (snd (Ok tt : result unit, MoreExamples.two_fields_engine_updated)).
  rewrite <- Hrun.
  rewrite (ApplyUpdateToData_keeps_other_variables 0 (displacement 2)
             MoreExamples.velocity 0 [10; 20; 30; 40]
             MoreExamples.two_fields_engine) by discriminate.
  vm_compute. reflexivity.
Defined.

End CouplingInterfaceDataMore.

(** ** More on tests/SmallTestsMPI.py *)

Module SmallTestsMPIMore.
Import SmallTestsMPI PyFacts SmallTestsMPISpec.
Import NearestNeighborMapperTestFactory.

Implicit Types (w : World) (env : Env).

Lemma within_missing {A} (scope : string) (body : M World A) w :
  cwd w ∈ directories w ->
  scope ∉ directories w ->
  within scope body w = (Raise (OSError scope), w).
Proof.
  intros Hcwd Hmissing.
  unfold within, bind, controlledExecutionScope.__init__, bind, getcwd, ret.
  rewrite decide_True by done.
  unfold with_, controlledExecutionScope.__enter__, chdir. simpl.
  by rewrite decide_False.
Qed.

(** X6. When the directory of the script does not exist (the working
    directory does), [setUp] and [test_execution] end in the [OSError] of
    [os.chdir] before anything else happens: no call is made into the
    mapping application and the working directory is the one they
    started in; so does any block under [controlledExecutionScope], which
    is not run. *)
Theorem script_directory_missing {A} env (mpi : option Z) (self : t)
    (body : M World A) w :
  cwd w ∈ directories w ->
  file_dir env ∉ directories w ->
  within (file_dir env) body w = (Raise (OSError (file_dir env)), w)
  /\ setUp env mpi w = (Raise (OSError (file_dir env)), w)
  /\ test_execution env self w = (Raise (OSError (file_dir env)), w).
Proof.
  intros Hcwd Hmissing. split_and!.
  - by apply within_missing.
  - unfold setUp. unfold bind at 1.
    assert (Hprobe : try_except
              (match mpi with
               | Some size => ret size
               | None => raise (NameError "mpi")
               end) (ret 1) w = (Ok (default 1 mpi), w)) by (by destruct mpi).
    rewrite Hprobe. by apply within_missing.
  - unfold test_execution. by apply within_missing.
Qed.

(** X7. When the directory recorded at construction no longer exists
    at the end of the block, the [with] statement ends in the [OSError] of
    [__exit__]'s [os.chdir]: the block's result, or the exception it
    raised, is lost, and the working directory stays where the block left
    it. *)
Theorem recorded_directory_gone {A} (scope : string) (body after : M World A)
    (w0 : World) (mgr : controlledExecutionScope.t) w :
  fst (controlledExecutionScope.__init__ scope w0) = Ok mgr ->
  scope ∈ directories w ->
  let w1 := mkWorld scope (directories w) (log w) in
  cwd w0 ∉ directories (snd (body w1)) ->
  with_ (controlledExecutionScope.__enter__ mgr)
        (controlledExecutionScope.__exit__ mgr) body after w
  = (Raise (OSError (cwd w0)), snd (body w1)).
Proof.
  intros Hmgr Hscope w1 Hgone.
  apply controlledExecutionScope_init in Hmgr as [-> _].
  unfold with_, controlledExecutionScope.__enter__,
    controlledExecutionScope.__exit__, chdir, bind, ret. simpl.
  rewrite decide_True by done. fold w1.
  destruct (body w1) as [[a|e] w2]; simpl in *; by rewrite decide_False.
Qed.


(** X9. [setUp] and [test_execution] leave the working directory and
    the directories as they found them, whether the calls into the
    mapping application return or raise. *)
Theorem test_methods_keep_cwd env (mpi : option Z) (self : t) w :
  file_dir env ∈ directories w ->
  cwd w ∈ directories w ->
  cwd (snd (setUp env mpi w)) = cwd w
  /\ directories (snd (setUp env mpi w)) = directories w
  /\ cwd (snd (test_execution env self w)) = cwd w
  /\ directories (snd (test_execution env self w)) = directories w.
Proof.
  intros Hdir Hcwd.
  rewrite setUp_spec, test_execution_spec by done. done.
Qed.

(** X10. A failed import of the MPI module gives the serial run: the
    import guard followed by [setUp] does what [setUp] does for one
    process, whatever exception the import ended with. *)
Theorem failed_import_is_serial env (e : exn) w :
  import_mpi env = Raise e ->
  (let* mpi := import_guard env in setUp env mpi) w = setUp env (Some 1) w.
Proof.
  intros Himport. unfold bind at 1. rewrite import_guard_spec, Himport.
  unfold setUp, bind, try_except, raise, ret. done.
Qed.

(** X11. With a process count other than 1, [test_execution] never
    runs both non-constant tests: after the four constant-field tests it
    makes at most one more call, and none at all unless the count is one
    of 2, 3, 4, 5, 8, 9.  (No call raises and the directories exist.) *)
Theorem parallel_runs_at_most_one_nonconstant_test env (self : t) w :
  num_processors self <> 1 ->
  (forall ev, raises env ev = None) ->
  file_dir env ∈ directories w ->
  cwd w ∈ directories w ->
  exists w' more,
    test_execution env self w = (Ok tt, w')
    /\ log w' =
       (log w ++
        [ Call (test self) TestMapConstantScalarValues 1;
          Call (test self) TestInverseMapConstantScalarValues 2;
          Call (test self) TestMapConstantVectorValues 3;
          Call (test self) TestInverseMapConstantVectorValues 4 ] ++ more)%list
    /\ (more = []
        \/ more = [Call (test self) TestMapNonConstantScalarValues 5]
        \/ more = [Call (test self) TestInverseMapNonConstantScalarValues 6])
    /\ (more = [] <->
        ~ num_processors self ∈ [2; 3; 4; 5; 8; 9]).
Proof.
  intros Hne Hnone Hdir Hcwd.
  rewrite test_execution_spec by done. rewrite called_all by done. simpl.
  unfold planned_calls. rewrite decide_False by done.
  eexists _, _. split; [done|]. split; [done|].
  set (n := num_processors self).
  assert (Hmem : n ∈ [2; 3; 4; 5; 8; 9]
                 <-> (n = 2 \/ n = 4 \/ n = 8) \/ (n = 3 \/ n = 5 \/ n = 9)).
  { rewrite !elem_of_cons, elem_of_nil. lia. }
  rewrite Hmem.
  destruct (decide (n = 2 \/ n = 4 \/ n = 8)) as [H248|H248],
           (decide (n = 3 \/ n = 5 \/ n = 9)) as [H359|H359]; simpl.
  - exfalso. lia.
  - split; [by right; left|]. split; [done | tauto].
  - split; [by right; right|]. split; [done | tauto].
  - split; [by left|]. split; [tauto | done].
Qed.

(** X15. [test_execution] stops at the first test that raises: the
    tests before it and the failing one have been called, none of the
    later ones; the exception is passed on and the working directory is
    the one [test_execution] started in. *)
Theorem first_failure_stops_the_tests env (self : t) w
    (before : list event) ev rest e :
  file_dir env ∈ directories w ->
  cwd w ∈ directories w ->
  planned_calls self = (before ++ ev :: rest)%list ->
  (forall ev', ev' ∈ before -> raises env ev' = None) ->
  raises env ev = Some e ->
  exists w',
    test_execution env self w = (Raise e, w')
    /\ log w' = (log w ++ before ++ [ev])%list
    /\ cwd w' = cwd w.
Proof.
  intros Hdir Hcwd Hplan Hbefore Hev.
  rewrite test_execution_spec by done.
  rewrite Hplan, (called_first env before ev rest e) by done.
  by eexists.
Qed.

Import Examples MoreExamples.

Lemma without_tests_dir_missing :
  cwd without_tests_dir ∈ directories without_tests_dir
  /\ tests_dir ∉ directories without_tests_dir.
Proof. split; [unfold without_tests_dir; simpl; set_solver | compute_done]. Qed.

Lemma script_directory_missing_witness :
  setUp (mpi_run 4) (Some 4) without_tests_dir
  = (Raise (OSError tests_dir), without_tests_dir).
Proof.
  apply (script_directory_missing (A:=unit) (mpi_run 4) (Some 4)
           (mk 4 (mkTest KratosExecuteNearestNeighborMapperTestMPI true))
           (ret tt) without_tests_dir).
  - exact (proj1 without_tests_dir_missing).
  - exact (proj2 without_tests_dir_missing).
Defined.

Lemma recorded_directory_gone_witness :
  let mgr := controlledExecutionScope.mk "/home/user" tests_dir in
  fst (with_ (controlledExecutionScope.__enter__ mgr)
             (controlledExecutionScope.__exit__ mgr) removing_block
             (ret tt) start)
  = Raise (OSError "/home/user").
Proof.
  pose proof start_directories as (Hdir & _ & _).
  simpl.
  rewrite (recorded_directory_gone tests_dir removing_block (ret tt) start
             (controlledExecutionScope.mk "/home/user" tests_dir) start
             start_manager Hdir); [reflexivity|].
  compute_done.
Defined.


Lemma test_methods_keep_cwd_witness :
  cwd (snd (test_execution mapper_broken
              (mk 2 (mkTest KratosExecuteNearestNeighborMapperTestMPI true))
              start))
  = "/home/user".
Proof.
  pose proof start_directories as (Hdir & Hcwd & _).
  apply (test_methods_keep_cwd mapper_broken None
           (mk 2 (mkTest KratosExecuteNearestNeighborMapperTestMPI true))
           start Hdir Hcwd).
Defined.

Lemma failed_import_is_serial_witness :
  (let* mpi := import_guard mpi_broken in setUp mpi_broken mpi) start
  = setUp mpi_broken (Some 1) start.
Proof.
  apply (failed_import_is_serial mpi_broken
           (EngineError "KratosMultiphysics.mpi") start).
  reflexivity.
Defined.

Lemma parallel_runs_at_most_one_nonconstant_test_witness :
  let self := mk 7 (mkTest KratosExecuteNearestNeighborMapperTestMPI true) in
  exists w',
    test_execution (mpi_run 7) self start = (Ok tt, w')
    /\ log w' =
       [ Call (test self) TestMapConstantScalarValues 1;
         Call (test self) TestInverseMapConstantScalarValues 2;
         Call (test self) TestMapConstantVectorValues 3;
         Call (test self) TestInverseMapConstantVectorValues 4 ].
Proof.
  pose proof start_directories as (Hdir & Hcwd & _).
  destruct (parallel_runs_at_most_one_nonconstant_test (mpi_run 7)
              (mk 7 (mkTest KratosExecuteNearestNeighborMapperTestMPI true))
              start)
    as (w' & more & Hrun & Hlog & _ & Hnone);
    [simpl; lia | reflexivity | exact Hdir | exact Hcwd |].
  exists w'. split; [exact Hrun|].
  destruct Hnone as [_ Hnone]. rewrite Hnone in Hlog; [exact Hlog|].
  simpl. rewrite !elem_of_cons, elem_of_nil. lia.
Defined.

Lemma first_failure_stops_the_tests_witness :
  let self := mk 1 (mkTest KratosExecuteNearestNeighborMapperTest true) in
  exists w',
    test_execution nonconstant_broken self start
    = (Raise (EngineError "values differ"), w')
    /\ log w' =
       [ Call (test self) TestMapConstantScalarValues 1;
         Call (test self) TestInverseMapConstantScalarValues 2;
         Call (test self) TestMapConstantVectorValues 3;
         Call (test self) TestInverseMapConstantVectorValues 4;
         Call (test self) TestMapNonConstantScalarValues 5 ]
    /\ cwd w' = "/home/user".
Proof.
  pose proof start_directories as (Hdir & Hcwd & _).
  apply (first_failure_stops_the_tests nonconstant_broken
           (mk 1 (mkTest KratosExecuteNearestNeighborMapperTest true)) start
           [ Call (mkTest KratosExecuteNearestNeighborMapperTest true)
               TestMapConstantScalarValues 1;
             Call (mkTest KratosExecuteNearestNeighborMapperTest true)
               TestInverseMapConstantScalarValues 2;
             Call (mkTest KratosExecuteNearestNeighborMapperTest true)
               TestMapConstantVectorValues 3;
             Call (mkTest KratosExecuteNearestNeighborMapperTest true)
               TestInverseMapConstantVectorValues 4 ]
           (Call (mkTest KratosExecuteNearestNeighborMapperTest true)
              TestMapNonConstantScalarValues 5)
           [ Call (mkTest KratosExecuteNearestNeighborMapperTest true)
               TestInverseMapNonConstantScalarValues 6 ]
           (EngineError "values differ")).
  - exact Hdir.
  - exact Hcwd.
  - reflexivity.
  - intros ev' Hev'. rewrite !elem_of_cons, elem_of_nil in Hev'.
    destruct Hev' as [->|[->|[->|[->|[]]]]]; reflexivity.
  - reflexivity.
Defined.

End SmallTestsMPIMore.

(** ** adaptative_remeshing_structural_mechanics_implicit_dynamic_solver.py *)

Module AdaptativeRemeshingImplicitMechanicalSolverSpec.
Import AdaptativeRemeshingImplicitMechanicalSolver.

Implicit Types (env : Env) (self : t) (k : kind).

(** X12. [AddVariables] adds [NODAL_H] to the nodal variables exactly
    when the meshing application is not available: the module sets
    [missing_meshing_dependencies] to [True] in the branch in which the
    application was found, and [AddVariables] adds the variable when the
    flag is [False].  (The base class's [AddVariables] returns, and
    [NODAL_H] had not been added before.) *)
Theorem NODAL_H_added_without_meshing env self :
  raises env (log self) BaseAddVariables = None ->
  AddNodalSolutionStepVariable "NODAL_H" ∉ log self ->
  AddNodalSolutionStepVariable "NODAL_H" ∈ log (snd (AddVariables env self))
  <-> CheckIfApplicationsAvailable env "MeshingApplication" = false.
Proof.
  intros Hbase Hfresh.
  unfold AddVariables, missing_meshing_dependencies, bind, engine_call, ret.
  rewrite Hbase. simpl.
  destruct (CheckIfApplicationsAvailable env "MeshingApplication"); simpl;
    repeat (destruct (raises env _ _); simpl);
    rewrite ?elem_of_app, ?elem_of_cons, ?elem_of_nil;
    intuition congruence.
Qed.

Lemma get_cached env k self process :
  attribute k self = Some process -> get env k self = (Ok process, self).
Proof.
  destruct k; simpl; unfold get_remeshing_process, get_metric_process;
    by intros ->.
Qed.

(** Asking for the other process leaves this one's attribute alone and
    creates nothing of this kind. *)
Lemma get_other env k k' self :
  k' <> k ->
  attribute k (snd (get env k' self)) = attribute k self
  /\ exists new,
       log (snd (get env k' self)) = (log self ++ new)%list
       /\ creation k ∉ new.
Proof.
  intros Hne.
  destruct k, k'; try done; simpl;
    unfold get_remeshing_process, get_metric_process,
      _create_remeshing_process, _create_metric_process, bind, engine_call.
  - destruct (_metric_process self) eqn:Hattr; simpl.
    + split; [done|]. exists []. rewrite app_nil_r. split; [done | apply not_elem_of_nil].
    + destruct (raises env _ _); simpl;
        (split; [done|]); eexists; (split; [done|]);
        rewrite list_elem_of_singleton; done.
  - destruct (_remeshing_process self) eqn:Hattr; simpl.
    + split; [done|]. exists []. rewrite app_nil_r. split; [done | apply not_elem_of_nil].
    + destruct (raises env _ _); simpl;
        (split; [done|]); eexists; (split; [done|]);
        rewrite list_elem_of_singleton; done.
Qed.

Lemma gets_cached env k process (ks : list kind) self :
  attribute k self = Some process ->
  attribute k (snd (gets env ks self)) = Some process
  /\ (exists new,
        log (snd (gets env ks self)) = (log self ++ new)%list
        /\ creation k ∉ new)
  /\ forall processes,
       fst (gets env ks self) = Ok processes ->
       forall i : nat, ks !! i = Some k -> processes !! i = Some process.
Proof.
  revert self. induction ks as [|k' ks IH]; intros self Hattr.
  - simpl. split_and!; [done | |].
    + exists []. rewrite app_nil_r. split; [done | apply not_elem_of_nil].
    + intros ps _ i Hi. by rewrite lookup_nil in Hi.
  - assert (k' = k \/ k' <> k) as [->|Hne]
      by (destruct k, k'; (by left) || (by right)).
    + assert (Heq : gets env (k :: ks) self
                    = (let* processes := gets env ks in
                       ret (process :: processes)) self).
      { cbn [gets]. unfold bind at 1. by rewrite (get_cached env k self process). }
      rewrite Heq. clear Heq.
      destruct (IH self Hattr) as (Hkeep & Hlog & Hres).
      unfold bind, ret. destruct (gets env ks self) as [[ps|e] self'];
        simpl in *; split_and!; try done.
      intros processes [= <-] [|i] Hi; simpl in *; [done|]. by apply (Hres ps).
    + destruct (get_other env k k' self Hne) as (Hsame & new & Hnew & Hnone).
      destruct (get env k' self) as [[p|e] self1] eqn:Hget;
        simpl in Hsame, Hnew.
      * assert (Heq : gets env (k' :: ks) self
                      = (let* processes := gets env ks in
                         ret (p :: processes)) self1).
        { cbn [gets]. unfold bind at 1. by rewrite Hget. }
        rewrite Heq. clear Heq.
        assert (Hattr1 : attribute k self1 = Some process) by congruence.
        destruct (IH self1 Hattr1) as (Hkeep & (new' & Hnew' & Hnone') & Hres).
        unfold bind, ret. destruct (gets env ks self1) as [[ps|e] self'];
          simpl in *; split_and!; try done.
        -- exists (new ++ new')%list. rewrite Hnew', Hnew, app_assoc.
           split; [done|]. rewrite elem_of_app. tauto.
        -- intros processes [= <-] [|i] Hi; simpl in *; [congruence|].
           by apply (Hres ps).
        -- exists (new ++ new')%list. rewrite Hnew', Hnew, app_assoc.
           split; [done|]. rewrite elem_of_app. tauto.
      * assert (Heq : gets env (k' :: ks) self = (Raise e, self1)).
        { cbn [gets]. unfold bind at 1. by rewrite Hget. }
        rewrite Heq. simpl. split_and!; [congruence | by exists new | done].
Qed.

(** X13. The processes are created once: after [get_remeshing_process]
    (or [get_metric_process]) has returned a process, every later call of
    it, with calls of the other getter in between, returns that same
    process, and no further creation of that kind is asked of the engine,
    even when the other getter fails. *)
Theorem process_is_created_once env k self process self1 (ks : list kind) :
  get env k self = (Ok process, self1) ->
  attribute k (snd (gets env ks self1)) = Some process
  /\ (exists new,
        log (snd (gets env ks self1)) = (log self1 ++ new)%list
        /\ creation k ∉ new)
  /\ forall processes,
       fst (gets env ks self1) = Ok processes ->
       forall i : nat, ks !! i = Some k -> processes !! i = Some process.
Proof.
  intros Hget. apply gets_cached.
  destruct k; simpl in *;
    unfold get_remeshing_process, get_metric_process,
      _create_remeshing_process, _create_metric_process, bind, engine_call in Hget.
  - destruct (_remeshing_process self) eqn:Hattr.
    + by injection Hget as <- <-.
    + destruct (raises env _ _); [done|]. by injection Hget as <- <-.
  - destruct (_metric_process self) eqn:Hattr.
    + by injection Hget as <- <-.
    + destruct (raises env _ _); [done|]. by injection Hget as <- <-.
Qed.

Import MoreExamples.

Lemma NODAL_H_added_without_meshing_witness :
  AddNodalSolutionStepVariable "NODAL_H"
    ∈ log (snd (AddVariables without_meshing fresh_solver))
  /\ AddNodalSolutionStepVariable "NODAL_H"
       ∉ log (snd (AddVariables with_meshing fresh_solver)).
Proof.
  split.
  - apply (NODAL_H_added_without_meshing without_meshing fresh_solver);
      [reflexivity | apply not_elem_of_nil | reflexivity].
  - intros Hin.
    apply (NODAL_H_added_without_meshing with_meshing fresh_solver) in Hin;
      [discriminate Hin | reflexivity | apply not_elem_of_nil].
Defined.

Lemma process_is_created_once_witness :
  let self1 := snd (get_remeshing_process with_meshing fresh_solver) in
  _remeshing_process
    (snd (gets with_meshing [Metric; Remeshing; Remeshing] self1))
  = Some 0%nat
  /\ forall processes,
       fst (gets with_meshing [Metric; Remeshing; Remeshing] self1)
       = Ok processes ->
       processes !! 1%nat = Some 0%nat /\ processes !! 2%nat = Some 0%nat.
Proof.
  destruct (process_is_created_once with_meshing Remeshing fresh_solver 0%nat
              (snd (get_remeshing_process with_meshing fresh_solver))
              [Metric; Remeshing; Remeshing] eq_refl) as (Hattr & _ & Hsame).
  split; [exact Hattr|].
  intros processes Hrun. split; apply (Hsame processes Hrun); reflexivity.
Defined.

End AdaptativeRemeshingImplicitMechanicalSolverSpec.

(** ** More on fluid_fraction_test_analysis.py *)

Module FluidFractionTestAnalysisMore.
Import FluidFractionTestAnalysis.

(** X14. The constructor takes two or three positional arguments: with
    three, the second reaches the post-process tool and the third is the
    project parameters; with two, the project parameters are the default
    [Parameters("{}")]; with any other number it ends in a [TypeError]. *)
Theorem constructor_arguments (args : list value) :
  match args with
  | [model; iteration] =>
      __init__ args = Ok (mk iteration model (Parameters "{}"))
  | [model; iteration; varying_parameters] =>
      __init__ args = Ok (mk iteration model varying_parameters)
  | _ => exists what, __init__ args = Raise (TypeError what)
  end.
Proof.
  destruct args as [|a1 [|a2 [|a3 [|a4 rest]]]]; try done; by eexists.
Qed.

End FluidFractionTestAnalysisMore.
